(** * Joints of build123d: a shallow embedding of [src/build123d/joints.py]

    The five joint classes ([RigidJoint], [RevoluteJoint], [LinearJoint],
    [CylindricalJoint], [BallJoint]), their constructors and their
    [connect_to] methods are embedded as functions on an explicit heap of
    Python objects.  Python [float]s are IEEE binary64 numbers and are
    modelled by Rocq's primitive floats, so comparisons behave as in Python
    (a NaN fails every range check, [inf] is a legal bound).  The ranges,
    positions and angles are annotated [float] in the source; an [int]
    passed for one of them is read as the float of the same value.

    The geometry classes imported with [from build123d import *]
    ([Vector], [Axis], [Plane], [Location], [Rotation]) are not part of the
    file; they are taken as an interface, the class [Kernel].  The
    general statements hold for all its implementations; the closed
    examples run on a symbolic one. *)

From Stdlib Require Import Floats Bool ZArith.
From stdpp Require Import base option gmap strings.

Local Open Scope bool_scope.

(** ** Numbers *)

(** [lo <= x <= hi], Python's chained comparison on a [(min, max)] tuple. *)
Definition in_range (r : float * float) (x : float) : bool :=
  (r.1 <=? x)%float && (x <=? r.2)%float.

(** Strictly below the minimum or strictly above the maximum. *)
Definition outside (r : float * float) (x : float) : bool :=
  (x <? r.1)%float || (r.2 <? x)%float.

(** [sum(range)]: Python's [sum] starts from the integer [0]. *)
Definition py_sum (r : float * float) : float := (0 + r.1 + r.2)%float.

(** ** The geometry kernel, as an interface *)

Class Kernel := {
  Vector : Type;
  Axis : Type;
  Plane : Type;
  Location : Type;
  (* Vector((x, y, z)), v.X, v.Y, v.Z, v + w, v * k, v.rotate(axis, angle) *)
  Vector_xyz : float -> float -> float -> Vector;
  Vector_X : Vector -> float;
  Vector_Y : Vector -> float;
  Vector_Z : Vector -> float;
  Vector_add : Vector -> Vector -> Vector;
  Vector_mul : Vector -> float -> Vector;
  Vector_rotate : Vector -> Axis -> float -> Vector;
  (* Axis(origin, direction), Axis.Z, a.position, a.direction,
     a.is_normal(b), a.located(loc), a.to_location() *)
  Axis_new : Vector -> Vector -> Axis;
  Axis_Z : Axis;
  Axis_position : Axis -> Vector;
  Axis_direction : Axis -> Vector;
  Axis_is_normal : Axis -> Axis -> bool;
  Axis_located : Axis -> Location -> Axis;
  Axis_to_location : Axis -> Location;
  (* Plane(origin=, x_dir=, z_dir=), Plane(origin=, z_dir=), p.x_dir,
     p.to_location() *)
  Plane_new : Vector -> Vector -> Vector -> Plane;
  Plane_new_z : Vector -> Vector -> Plane;
  Plane_x_dir : Plane -> Vector;
  Plane_to_location : Plane -> Location;
  (* Location(), Location(vector), Location(plane), Rotation(x, y, z),
     a * b, a.inverse(), a.relative_to(b), a.orientation *)
  Location_new : Location;
  Location_of_Vector : Vector -> Location;
  Location_of_Plane : Plane -> Location;
  Rotation : float -> float -> float -> Location;
  Location_mul : Location -> Location -> Location;
  Location_inverse : Location -> Location;
  Location_relative_to : Location -> Location -> Location;
  Location_orientation : Location -> Vector
}.

Declare Scope loc_scope.
Delimit Scope loc_scope with loc.
Infix "*" := Location_mul : loc_scope.

(** ** Objects *)

Definition body_id := nat.
Definition joint_id := nat.

(** The attributes each class adds to those of [Joint]. *)

Module RigidJoint.
Section Fields.
Context `{Kernel}.
Record fields := Build { relative_location : Location }.
End Fields.
End RigidJoint.

Module RevoluteJoint.
Section Fields.
Context `{Kernel}.
Record fields := Build {
  range : float * float;
  angle_reference : Vector;
  angle : option float;
  relative_axis : Axis
}.
Definition set_angle (a : option float) (r : fields) : fields :=
  Build (range r) (angle_reference r) a (relative_axis r).
End Fields.
End RevoluteJoint.

Module LinearJoint.
Section Fields.
Context `{Kernel}.
(** [angle] is an attribute only once [connect_to] has assigned it;
    [None] stands for both [None] and the missing attribute. *)
Record fields := Build {
  axis : Axis;
  range : float * float;
  position : option float;
  angle : option float;
  relative_axis : Axis
}.
Definition set_position (p : option float) (r : fields) : fields :=
  Build (axis r) (range r) p (angle r) (relative_axis r).
Definition set_angle (a : option float) (r : fields) : fields :=
  Build (axis r) (range r) (position r) a (relative_axis r).
End Fields.
End LinearJoint.

Module CylindricalJoint.
Section Fields.
Context `{Kernel}.
(** The constructor initialises [linear_position] and
    [rotational_position]; [connect_to] assigns [position] and [angle]. *)
Record fields := Build {
  axis : Axis;
  linear_position : option float;
  rotational_position : option float;
  angle_reference : Vector;
  rotational_range : float * float;
  linear_range : float * float;
  relative_axis : Axis;
  position : option float;
  angle : option float
}.
Definition set_position (p : option float) (r : fields) : fields :=
  Build (axis r) (linear_position r) (rotational_position r)
    (angle_reference r) (rotational_range r) (linear_range r)
    (relative_axis r) p (angle r).
Definition set_angle (a : option float) (r : fields) : fields :=
  Build (axis r) (linear_position r) (rotational_position r)
    (angle_reference r) (rotational_range r) (linear_range r)
    (relative_axis r) (position r) a.
End Fields.
End CylindricalJoint.

Module BallJoint.
Section Fields.
Context `{Kernel}.
Record fields := Build {
  relative_location : Location;
  angle_range : (float * float) * (float * float) * (float * float);
  angle_reference : Plane
}.
End Fields.
End BallJoint.

Section Joints.
Context `{K : Kernel}.

Inductive Subclass :=
  | Rigid (r : RigidJoint.fields)
  | Revolute (r : RevoluteJoint.fields)
  | Linear (r : LinearJoint.fields)
  | Cylindrical (r : CylindricalJoint.fields)
  | Ball (r : BallJoint.fields).

(** A [Joint] object: the attributes of the base class and of every
    subclass ([label], [to_part], [parent], [connected_to]) and the
    subclass's own. *)
Record Joint := Build_Joint {
  label : string;
  to_part : body_id;
  parent : body_id;
  connected_to : option joint_id;
  subclass : Subclass
}.

Definition set_connected_to (c : option joint_id) (j : Joint) : Joint :=
  Build_Joint (label j) (to_part j) (parent j) c (subclass j).
Definition set_subclass (v : Subclass) (j : Joint) : Joint :=
  Build_Joint (label j) (to_part j) (parent j) (connected_to j) v.

(** A [JointBox]: its [location] and its [joints] dictionary. *)
Record Body := Build_Body {
  location : Location;
  joints : gmap string joint_id
}.

Definition set_location (l : Location) (b : Body) : Body :=
  Build_Body l (joints b).
Definition set_joints (d : gmap string joint_id) (b : Body) : Body :=
  Build_Body (location b) d.

(** ** The heap and the monad of Python statements *)

Record Heap := Build_Heap {
  bodies : gmap body_id Body;
  jointobjs : gmap joint_id Joint
}.

Inductive exn := TypeError | ValueError | AttributeError.

(** A statement returns, or raises with the heap as it is at the [raise].
    [Stuck] is no Python run at all: a reference to an object that is not
    in the heap, or a method applied to an object of another class. *)
Inductive Result (A : Type) :=
  | Return (a : A) (h : Heap)
  | Raise (e : exn) (h : Heap)
  | Stuck.
Arguments Return {A} a h.
Arguments Raise {A} e h.
Arguments Stuck {A}.

Definition M (A : Type) : Type := Heap -> Result A.

#[global] Instance M_ret : MRet M := fun A a h => Return a h.
#[global] Instance M_bind : MBind M := fun A B f m h =>
  match m h with
  | Return a h' => f a h'
  | Raise e h' => Raise e h'
  | Stuck => Stuck
  end.

Definition raise {A} (e : exn) : M A := fun h => Raise e h.
Definition stuck {A} : M A := fun _ => Stuck.

Definition get_joint (j : joint_id) : M Joint := fun h =>
  match jointobjs h !! j with Some J => Return J h | None => Stuck end.
Definition put_joint (j : joint_id) (J : Joint) : M unit := fun h =>
  Return () (Build_Heap (bodies h) (<[j := J]> (jointobjs h))).
Definition get_body (b : body_id) : M Body := fun h =>
  match bodies h !! b with Some B => Return B h | None => Stuck end.
Definition put_body (b : body_id) (B : Body) : M unit := fun h =>
  Return () (Build_Heap (<[b := B]> (bodies h)) (jointobjs h)).

(** [shape.locate(loc)] and [self.connected_to = other]. *)
Definition locate (b : body_id) (l : Location) : M unit :=
  B ← get_body b; put_body b (set_location l B).
Definition assign_connected_to (self other : joint_id) : M unit :=
  S ← get_joint self; put_joint self (set_connected_to (Some other) S).

(** [isinstance(other, RigidJoint)], [isinstance(other, RevoluteJoint)]. *)
Definition is_Rigid (J : Joint) : bool :=
  match subclass J with Rigid _ => true | _ => false end.
Definition is_Revolute (J : Joint) : bool :=
  match subclass J with Revolute _ => true | _ => false end.

(** [joint.relative_location]: an attribute of [RigidJoint] and
    [BallJoint] objects only. *)
Definition relative_location (J : Joint) : M Location :=
  match subclass J with
  | Rigid r => mret (RigidJoint.relative_location r)
  | Ball r => mret (BallJoint.relative_location r)
  | _ => raise AttributeError
  end.

Definition origin : Vector := Vector_xyz 0 0 0.

(** ** [RigidJoint.connect_to] (joints.py, lines 62-74)

    The argument of [locate] is evaluated from left to right; the read of
    [other.relative_location] is the only statement that can raise. *)

Definition RigidJoint_connect_to (self other : joint_id) : M unit :=
  S ← get_joint self;
  match subclass S with
  | Rigid r =>
      O ← get_joint other;
      P ← get_body (parent S);
      r' ← relative_location O;
      locate (parent O)
        (location P * RigidJoint.relative_location r * r')%loc;;
      assign_connected_to self other
  | _ => stuck
  end.

(** ** [RevoluteJoint.connect_to] (lines 128-165)

    [self.angle] is assigned the checked angle; the rotation is built
    from the angle after [360.0 if angle == 0.0 else angle]. *)

Definition RevoluteJoint_connect_to
    (self other : joint_id) (angle : option float) : M unit :=
  S ← get_joint self;
  match subclass S with
  | Revolute r =>
      O ← get_joint other;
      if negb (is_Rigid O) then raise TypeError else
      let angle := default (RevoluteJoint.range r).1 angle in
      if negb (in_range (RevoluteJoint.range r) angle)
      then raise ValueError else
      let r' := RevoluteJoint.set_angle (Some angle) r in
      put_joint self (set_subclass (Revolute r') S);;
      let angle := if (angle =? 0)%float then 360%float else angle in
      let rotation :=
        Location_of_Plane
          (Plane_new origin
             (Vector_rotate (RevoluteJoint.angle_reference r) Axis_Z angle)
             (Vector_xyz 0 0 1)) in
      P ← get_body (parent S);
      ro ← relative_location O;
      let new_location :=
        (location P * Axis_to_location (RevoluteJoint.relative_axis r)
         * rotation * Location_inverse ro)%loc in
      locate (parent O) new_location;;
      assign_connected_to self other
  | _ => stuck
  end.
(** ** [LinearJoint.connect_to] (lines 237-285) *)

(** A value passed to [connect_to(self, *args, **kwargs)]. *)
Inductive pyval := PyNone | PyFloat (f : float) | PyJoint (j : joint_id).

(** The parsing of the arguments into [(other, position, angle)]
    (lines 241-250): positional arguments first, keywords over them. *)
Definition parse_args (args : list pyval) (kwargs : gmap string pyval)
    : pyval * pyval * pyval :=
  let '(other, position, angle) := (PyNone, PyNone, PyNone) in
  let '(other, position, angle) :=
    match args with
    | [] => (other, position, angle)
    | arg0 :: _ =>
        (arg0,
         if bool_decide (2 <= length args) then nth 1 args PyNone else position,
         if bool_decide (length args = 3) then nth 2 args PyNone else angle)
    end in
  if bool_decide (dom kwargs = ∅) then (other, position, angle) else
    (default other (kwargs !! "other"),
     default position (kwargs !! "position"),
     default angle (kwargs !! "angle")).

(** [d if v is None else v], then used as a number: comparing a float
    with a joint object raises [TypeError]. *)
Definition number_or (d : float) (v : pyval) : M float :=
  match v with
  | PyNone => mret d
  | PyFloat f => mret f
  | PyJoint _ => raise TypeError
  end.

(** [self.position] is assigned between the check of the position and
    the check of the angle (lines 257-265). *)
Definition LinearJoint_connect_to
    (self : joint_id) (args : list pyval) (kwargs : gmap string pyval)
    : M unit :=
  let '(other, position, angle) := parse_args args kwargs in
  S ← get_joint self;
  match subclass S with
  | Linear r =>
      match other with
      | PyJoint other =>
          O ← get_joint other;
          if negb (is_Rigid O || is_Revolute O) then raise TypeError else
          position ← number_or (py_sum (LinearJoint.range r) / 2)%float position;
          if negb (in_range (LinearJoint.range r) position)
          then raise ValueError else
          let r := LinearJoint.set_position (Some position) r in
          put_joint self (set_subclass (Linear r) S);;
          '(angle, rotation) ←
            match subclass O with
            | Revolute ro =>
                angle ← number_or (RevoluteJoint.range ro).1 angle;
                if negb (in_range (RevoluteJoint.range ro) angle)
                then raise ValueError else
                mret (angle,
                      Location_of_Plane
                        (Plane_new origin
                           (Vector_rotate (RevoluteJoint.angle_reference ro)
                              (RevoluteJoint.relative_axis ro) angle)
                           (Axis_direction (RevoluteJoint.relative_axis ro))))
            | _ => mret (0%float, Location_new)
            end;
          let r := LinearJoint.set_angle (Some angle) r in
          put_joint self (set_subclass (Linear r) S);;
          let joint_relative_position :=
            (Location_of_Vector
               (Vector_add (Axis_position (LinearJoint.relative_axis r))
                  (Vector_mul (Axis_direction (LinearJoint.relative_axis r))
                     position))
             * rotation)%loc in
          P ← get_body (parent S);
          locate (parent O) (location P * joint_relative_position)%loc;;
          assign_connected_to self other
      | _ => raise TypeError
      end
  | _ => stuck
  end.

(** ** [CylindricalJoint.connect_to] (lines 347-394)

    The checked values are assigned to [self.position] and [self.angle];
    both parameters default to the middle of their range. *)

Definition CylindricalJoint_connect_to
    (self other : joint_id) (position angle : option float) : M unit :=
  S ← get_joint self;
  match subclass S with
  | Cylindrical r =>
      O ← get_joint other;
      if negb (is_Rigid O) then raise TypeError else
      let position :=
        default (py_sum (CylindricalJoint.linear_range r) / 2)%float position in
      if negb (in_range (CylindricalJoint.linear_range r) position)
      then raise ValueError else
      let r := CylindricalJoint.set_position (Some position) r in
      put_joint self (set_subclass (Cylindrical r) S);;
      let angle :=
        default (py_sum (CylindricalJoint.rotational_range r) / 2)%float angle in
      if negb (in_range (CylindricalJoint.rotational_range r) angle)
      then raise ValueError else
      let r := CylindricalJoint.set_angle (Some angle) r in
      put_joint self (set_subclass (Cylindrical r) S);;
      let joint_relative_position :=
        Location_of_Vector
          (Vector_add (Axis_position (CylindricalJoint.relative_axis r))
             (Vector_mul (Axis_direction (CylindricalJoint.relative_axis r))
                position)) in
      let joint_rotation :=
        Location_of_Plane
          (Plane_new origin
             (Vector_rotate (CylindricalJoint.angle_reference r)
                (CylindricalJoint.relative_axis r) angle)
             (Axis_direction (CylindricalJoint.relative_axis r))) in
      P ← get_body (parent S);
      locate (parent O)
        (location P * joint_relative_position * joint_rotation)%loc;;
      assign_connected_to self other
  | _ => stuck
  end.

(** ** [BallJoint.connect_to] (lines 455-495) *)

(** The loop over [zip([0, 1, 2], [orientation.X, .Y, .Z])]. *)
Definition orientation_in_range
    (angle_range : (float * float) * (float * float) * (float * float))
    (orientation : Vector) : bool :=
  forallb (fun '(i, r) => in_range i r)
    [ (angle_range.1.1, Vector_X orientation);
      (angle_range.1.2, Vector_Y orientation);
      (angle_range.2, Vector_Z orientation) ].

Definition BallJoint_rotation
    (r : BallJoint.fields) (angles : option (float * float * float))
    : Location :=
  let '(x, y, z) :=
    default ((BallJoint.angle_range r).1.1.1,
             (BallJoint.angle_range r).1.2.1,
             (BallJoint.angle_range r).2.1) angles in
  (Rotation x y z * Plane_to_location (BallJoint.angle_reference r))%loc.

Definition BallJoint_connect_to
    (self other : joint_id) (angles : option (float * float * float))
    : M unit :=
  S ← get_joint self;
  match subclass S with
  | Ball r =>
      O ← get_joint other;
      if negb (is_Rigid O) then raise TypeError else
      let rotation := BallJoint_rotation r angles in
      if negb (orientation_in_range (BallJoint.angle_range r)
                 (Location_orientation rotation))
      then raise ValueError else
      P ← get_body (parent S);
      r' ← relative_location O;
      let new_location :=
        (location P * BallJoint.relative_location r * rotation
         * Location_inverse r')%loc in
      locate (parent O) new_location;;
      assign_connected_to self other
  | _ => stuck
  end.

(** ** Constructors

    An [angle_reference] that is given is a [Vector] or a tuple of three
    numbers, both true in the test [if angle_reference:], and
    [Vector(angle_reference)] is the direction itself; the argument is an
    [option Vector].  The defaults of the ranges are for the caller to
    pass. *)

(** A new object gets an identity no object of the heap has. *)
Definition alloc (J : Joint) : M joint_id := fun h =>
  let j := fresh (dom (jointobjs h)) in
  Return j (Build_Heap (bodies h) (<[j := J]> (jointobjs h))).

(** [to_part.joints[label] = self] *)
Definition register (to_part : body_id) (label : string) (j : joint_id)
    : M unit :=
  B ← get_body to_part;
  put_body to_part (set_joints (<[label := j]> (joints B)) B).

(** Reading an attribute of the object under construction: it is there
    only once it has been assigned. *)
Definition getattr {A} (attr : option A) : M A :=
  match attr with Some a => mret a | None => raise AttributeError end.

(** [RigidJoint.__init__] (lines 55-60) *)
Definition RigidJoint_init
    (label : string) (to_part : body_id) (joint_location : Location)
    : M joint_id :=
  B ← get_body to_part;
  let relative_location := Location_relative_to joint_location (location B) in
  self ← alloc (Build_Joint label to_part to_part None
                  (Rigid (RigidJoint.Build relative_location)));
  register to_part label self;;
  mret self.

(** [RevoluteJoint.__init__] (lines 106-126) *)
Definition RevoluteJoint_init
    (label : string) (to_part : body_id) (axis : Axis)
    (angle_reference : option Vector) (range : float * float)
    : M joint_id :=
  angle_reference ←
    match angle_reference with
    | Some angle_reference =>
        if negb (Axis_is_normal axis (Axis_new origin angle_reference))
        then raise ValueError
        else mret angle_reference
    | None => mret (Plane_x_dir (Plane_new_z origin (Axis_direction axis)))
    end;
  B ← get_body to_part;
  let relative_axis := Axis_located axis (Location_inverse (location B)) in
  self ← alloc (Build_Joint label to_part to_part None
                  (Revolute (RevoluteJoint.Build range angle_reference None
                               relative_axis)));
  register to_part label self;;
  mret self.

(** [LinearJoint.__init__] (lines 192-206) *)
Definition LinearJoint_init
    (label : string) (to_part : body_id) (axis : Axis)
    (range : float * float) : M joint_id :=
  B ← get_body to_part;
  let relative_axis := Axis_located axis (Location_inverse (location B)) in
  self ← alloc (Build_Joint label to_part to_part None
                  (Linear (LinearJoint.Build axis range None None
                             relative_axis)));
  register to_part label self;;
  mret self.

(** [CylindricalJoint.__init__] (lines 321-345): line 336 tests
    [Axis((0, 0, 0), self.angle_reference)], not the argument. *)
Definition CylindricalJoint_init
    (label : string) (to_part : body_id) (axis : Axis)
    (angle_reference : option Vector)
    (linear_range rotational_range : float * float) : M joint_id :=
  (* [self.angle_reference] has not been assigned when the test reads it *)
  let self_angle_reference : option Vector := None in
  angle_reference ←
    match angle_reference with
    | Some angle_reference =>
        self_angle_reference ← getattr self_angle_reference;
        if negb (Axis_is_normal axis (Axis_new origin self_angle_reference))
        then raise ValueError
        else mret angle_reference
    | None => mret (Plane_x_dir (Plane_new_z origin (Axis_direction axis)))
    end;
  B ← get_body to_part;
  let relative_axis := Axis_located axis (Location_inverse (location B)) in
  self ← alloc (Build_Joint label to_part to_part None
                  (Cylindrical
                     (CylindricalJoint.Build axis None None angle_reference
                        rotational_range linear_range relative_axis
                        None None)));
  register to_part label self;;
  mret self.

(** [BallJoint.__init__] (lines 437-453) *)
Definition BallJoint_init
    (label : string) (to_part : body_id) (joint_location : Location)
    (angle_range : (float * float) * (float * float) * (float * float))
    (angle_reference : Plane) : M joint_id :=
  B ← get_body to_part;
  let relative_location := Location_relative_to joint_location (location B) in
  self ← alloc (Build_Joint label to_part to_part None
                  (Ball (BallJoint.Build relative_location angle_range
                           angle_reference)));
  register to_part label self;;
  mret self.

End Joints.

Arguments Return {K A} a h.
Arguments Raise {K A} e h.
Arguments Stuck {K A}.

(** ** Closed forms and observations

    The locations [connect_to] computes and the heaps it leaves, for the
    statements of the properties. *)

Section ClosedForms.
Context `{K : Kernel}.

(** [sum(range) / 2], the position when none is given. *)
Definition midpoint (r : float * float) : float := (py_sum r / 2)%float.

(** [axis.position + axis.direction * position] *)
Definition axis_offset (a : Axis) (position : float) : Vector :=
  Vector_add (Axis_position a) (Vector_mul (Axis_direction a) position).

(** [Location(Plane(origin, x_dir=reference.rotate(axis, angle),
    z_dir=z_dir))] *)
Definition rotation_about
    (reference : Vector) (a : Axis) (angle : float) (z_dir : Vector)
    : Location :=
  Location_of_Plane
    (Plane_new origin (Vector_rotate reference a angle) z_dir).

Definition RevoluteJoint_rotation (r : RevoluteJoint.fields) (angle : float)
    : Location :=
  rotation_about (RevoluteJoint.angle_reference r) Axis_Z angle
    (Vector_xyz 0 0 1).

Definition RevoluteJoint_new_location
    (P : Body) (r : RevoluteJoint.fields) (ro : RigidJoint.fields)
    (angle : float) : Location :=
  (location P * Axis_to_location (RevoluteJoint.relative_axis r)
   * RevoluteJoint_rotation r angle
   * Location_inverse (RigidJoint.relative_location ro))%loc.

(** The rotation of a pin in a slot: about the pin's own axis. *)
Definition pin_rotation (ro : RevoluteJoint.fields) (angle : float)
    : Location :=
  rotation_about (RevoluteJoint.angle_reference ro)
    (RevoluteJoint.relative_axis ro) angle
    (Axis_direction (RevoluteJoint.relative_axis ro)).

Definition LinearJoint_new_location
    (P : Body) (r : LinearJoint.fields) (position : float)
    (rotation : Location) : Location :=
  (location P
   * (Location_of_Vector (axis_offset (LinearJoint.relative_axis r) position)
      * rotation))%loc.

Definition CylindricalJoint_new_location
    (P : Body) (r : CylindricalJoint.fields) (position angle : float)
    : Location :=
  (location P
   * Location_of_Vector
       (axis_offset (CylindricalJoint.relative_axis r) position)
   * rotation_about (CylindricalJoint.angle_reference r)
       (CylindricalJoint.relative_axis r) angle
       (Axis_direction (CylindricalJoint.relative_axis r)))%loc.

Definition BallJoint_new_location
    (P : Body) (r : BallJoint.fields) (ro : RigidJoint.fields)
    (rotation : Location) : Location :=
  (location P * BallJoint.relative_location r * rotation
   * Location_inverse (RigidJoint.relative_location ro))%loc.

(** The rotation of a pin in a slot as the specification words it: the
    reference is rotated about the slot's axis and Z follows that axis. *)
Definition spec_pin_rotation
    (slot_axis : Axis) (ro : RevoluteJoint.fields) (angle : float)
    : Location :=
  rotation_about (RevoluteJoint.angle_reference ro) slot_axis angle
    (Axis_direction slot_axis).

(** An optional number as an argument: [None] or the number. *)
Definition pyval_of (x : option float) : pyval :=
  match x with Some f => PyFloat f | None => PyNone end.

(** The parameters a joint has recorded: [(position, angle)]. *)
Definition recorded (h : Heap) (j : joint_id)
    : option (option float * option float) :=
  J ← jointobjs h !! j;
  match subclass J with
  | Revolute r => Some (None, RevoluteJoint.angle r)
  | Linear r => Some (LinearJoint.position r, LinearJoint.angle r)
  | Cylindrical r =>
      Some (CylindricalJoint.position r, CylindricalJoint.angle r)
  | _ => Some (None, None)
  end.

(** The location of a body. *)
Definition placement (h : Heap) (b : body_id) : option Location :=
  location <$> bodies h !! b.

(** The heap after a successful [connect_to]: the partner's body moved,
    the calling joint updated. *)
Definition connected
    (h : Heap) (b : body_id) (B : Body) (l : Location)
    (self : joint_id) (S : Joint) (other : joint_id) : Heap :=
  Build_Heap (<[b := set_location l B]> (bodies h))
    (<[self := set_connected_to (Some other) S]> (jointobjs h)).

(** The heap after a statement that assigned attributes of [self] only. *)
Definition with_subclass
    (h : Heap) (self : joint_id) (S : Joint) (v : Subclass) : Heap :=
  Build_Heap (bodies h) (<[self := set_subclass v S]> (jointobjs h)).

(** The heap once a constructor has returned the new joint [J] of the
    body [to_part]. *)
Definition constructed
    (h : Heap) (label : string) (to_part : body_id) (B : Body) (J : Joint)
    : Heap :=
  let self := fresh (dom (jointobjs h)) in
  Build_Heap
    (<[to_part := set_joints (<[label := self]> (joints B)) B]> (bodies h))
    (<[self := J]> (jointobjs h)).

(** The heap a successful call leaves, whatever the class of [self]. *)
Definition left_connected
    (h h' : Heap) (self other : joint_id) (O : Joint) : Prop :=
  exists S S' B l,
    jointobjs h !! self = Some S /\ bodies h !! parent O = Some B /\
    parent S' = parent S /\
    h' = connected h (parent O) B l self S' other.

(** What a call of [self.connect_to(other)] may have changed between [h]
    and [h']: the location of the partner's body, the attributes of
    [self], and [self.connected_to], which is [other]. *)
Definition moved_only
    (h h' : Heap) (self other : joint_id) (O : Joint) : Prop :=
  (forall b, b <> parent O -> bodies h' !! b = bodies h !! b) /\
  joints <$> bodies h' !! parent O = joints <$> bodies h !! parent O /\
  (forall j, j <> self -> jointobjs h' !! j = jointobjs h !! j) /\
  connected_to <$> jointobjs h' !! self = Some (Some other) /\
  parent <$> jointobjs h' !! self = parent <$> jointobjs h !! self.

End ClosedForms.

(** ** A symbolic kernel

    For closed examples the interface is implemented by terms: every
    geometric operation is a constructor, so two locations are equal
    exactly when the same kernel calls built them.  The few operations
    that return numbers or booleans are computed on literal vectors, and
    the orientation of a location on the angles of its [Rotation]. *)

Inductive SVector :=
  | SV_xyz (x y z : float)
  | SV_add (v w : SVector)
  | SV_mul (v : SVector) (k : float)
  | SV_rotate (v : SVector) (a : SAxis) (angle : float)
  | SV_position (a : SAxis)
  | SV_direction (a : SAxis)
  | SV_x_dir (p : SPlane)
  | SV_orientation (l : SLocation)
with SAxis :=
  | SA_new (o d : SVector)
  | SA_Z
  | SA_located (a : SAxis) (l : SLocation)
with SPlane :=
  | SP_new (o x z : SVector)
  | SP_new_z (o z : SVector)
with SLocation :=
  | SL_new
  | SL_of_Vector (v : SVector)
  | SL_of_Plane (p : SPlane)
  | SL_Rotation (x y z : float)
  | SL_mul (a b : SLocation)
  | SL_inverse (a : SLocation)
  | SL_relative_to (a b : SLocation)
  | SL_of_Axis (a : SAxis)
  | SL_to_location (p : SPlane).

(** [Location.orientation] gives the rotation of a location as three
    angles in degrees, each in (-180, 180]: whole turns are lost, so
    [Rotation(400, 0, 0).orientation.X] is 40 and
    [Rotation(200, 0, 0).orientation.X] is -160.  The middle angle is in
    [-90, 90]; a [Rotation] whose middle angle is beyond a quarter turn is
    the same rotation as the one with the angles
    [(x + 180, 180 - y, z + 180)]. *)

(** The whole number nearest to [x]: adding and subtracting
    [1.5 * 2^52] rounds a binary64 number to an integer, halves to the
    even one. *)
Definition nearest (x : float) : float :=
  (x + 6755399441055744 - 6755399441055744)%float.

(** The angle [a] less its whole turns, in (-180, 180]. *)
Definition wrap (a : float) : float :=
  let r := (a - 360 * nearest (a / 360))%float in
  if (r <=? -180)%float then (r + 360)%float else r.

Definition canonical (angles : float * float * float)
    : float * float * float :=
  let '(x, y, z) := angles in
  let y := wrap y in
  if (-90 <=? y)%float && (y <=? 90)%float
  then (wrap x, y, wrap z)
  else (wrap (x + 180), wrap (180 - y), wrap (z + 180))%float.

Definition no_rotation (angles : float * float * float) : bool :=
  let '(x, y, z) := angles in
  (x =? 0)%float && (y =? 0)%float && (z =? 0)%float.

(** [x_dir] is [(1, 0, 0)] and [z_dir] is [(0, 0, 1)]. *)
Definition directions_of_XY (p : SPlane) : bool :=
  match p with
  | SP_new _ (SV_xyz x y z) (SV_xyz x' y' z') =>
      ((x =? 1) && (y =? 0) && (z =? 0)
       && (x' =? 0) && (y' =? 0) && (z' =? 1))%float
  | _ => false
  end.

(** The angles of the [Rotation] a term is made of, where the term shows
    them: a [Rotation] itself; a location that does not rotate (the
    identity, a translation, the location of a plane with the directions
    of [Plane.XY]); a product of which one side does not rotate. *)
Fixpoint rotation_angles (l : SLocation) : option (float * float * float) :=
  match l with
  | SL_new | SL_of_Vector _ => Some (0, 0, 0)%float
  | SL_Rotation x y z => Some (x, y, z)
  | SL_of_Plane p | SL_to_location p =>
      if directions_of_XY p then Some (0, 0, 0)%float else None
  | SL_mul a b =>
      match rotation_angles a, rotation_angles b with
      | Some ra, Some rb =>
          if no_rotation rb then Some ra
          else if no_rotation ra then Some rb
          else None
      | _, _ => None
      end
  | _ => None
  end.

(** The decomposition; where the term does not show the angles, they are
    not numbers. *)
Definition euler (l : SLocation) : float * float * float :=
  match rotation_angles l with
  | Some angles => canonical angles
  | None => (nan, nan, nan)
  end.

Definition coords (v : SVector) : float * float * float :=
  match v with
  | SV_xyz x y z => (x, y, z)
  | SV_orientation l => euler l
  | SV_direction SA_Z => (0, 0, 1)%float
  | SV_direction (SA_new _ (SV_xyz x y z)) => (x, y, z)
  | _ => (0, 0, 0)%float
  end.

Definition dot (v w : SVector) : float :=
  let '(x, y, z) := coords v in
  let '(x', y', z') := coords w in
  (x * x' + y * y' + z * z')%float.

#[export] Instance SymKernel : Kernel := {|
  Vector := SVector;
  Axis := SAxis;
  Plane := SPlane;
  Location := SLocation;
  Vector_xyz := SV_xyz;
  Vector_X v := (coords v).1.1;
  Vector_Y v := (coords v).1.2;
  Vector_Z v := (coords v).2;
  Vector_add := SV_add;
  Vector_mul := SV_mul;
  Vector_rotate := SV_rotate;
  Axis_new := SA_new;
  Axis_Z := SA_Z;
  Axis_position := SV_position;
  Axis_direction := SV_direction;
  Axis_is_normal a b := (dot (SV_direction a) (SV_direction b) =? 0)%float;
  Axis_located := SA_located;
  Axis_to_location := SL_of_Axis;
  Plane_new := SP_new;
  Plane_new_z := SP_new_z;
  Plane_x_dir := SV_x_dir;
  Plane_to_location := SL_to_location;
  Location_new := SL_new;
  Location_of_Vector := SL_of_Vector;
  Location_of_Plane := SL_of_Plane;
  Rotation := SL_Rotation;
  Location_mul := SL_mul;
  Location_inverse := SL_inverse;
  Location_relative_to := SL_relative_to;
  Location_orientation := SV_orientation
|}.

(** ** An example scene

    Two boxes, [base] at [(1, 1, 1)] and [arm] at the origin, and the
    joints of the file's own examples, built by the constructors. *)

Module Scene.

Definition base : body_id := 0.
Definition arm : body_id := 1.

Definition empty : Heap (K := SymKernel) :=
  Build_Heap
    {[ base := Build_Body (SL_of_Vector (SV_xyz 1 1 1)) ∅;
       arm := Build_Body SL_new ∅ ]}
    ∅.

(** Runs the constructors one after the other; the identities they
    return are [0], [1], ... in this order. *)
Definition build (cs : list (M joint_id)) : Heap :=
  foldl (fun h c => match c h with Return _ h' => h' | _ => h end) empty cs.

Definition X_axis : SAxis := SA_new (SV_xyz 0 0 0) (SV_xyz 1 0 0).
Definition XY : SPlane := SP_new (SV_xyz 0 0 0) (SV_xyz 1 0 0) (SV_xyz 0 0 1).

Definition heap : Heap := Eval vm_compute in
  build
    [ (* 0 *) RigidJoint_init "side" base (SL_of_Vector (SV_xyz 5 0 0));
      (* 1 *) RigidJoint_init "top" arm (SL_of_Vector (SV_xyz 0 0 5));
      (* 2 *) RevoluteJoint_init "hinge" base SA_Z None (0, 360)%float;
      (* 3 *) LinearJoint_init "slide" base X_axis (0, 12)%float;
      (* 4 *) CylindricalJoint_init "hole" base SA_Z None
                (-10, 10)%float (0, 360)%float;
      (* 5 *) BallJoint_init "socket" base (SL_of_Vector (SV_xyz 0 5 0))
                ((0, 360), (0, 360), (0, 360))%float XY;
      (* 6 *) RevoluteJoint_init "pin" arm SA_Z None (0, 180)%float;
      (* 7 *) BallJoint_init "ball" arm (SL_of_Vector (SV_xyz 0 0 1))
                ((0, 360), (0, 360), (0, 360))%float XY ].

End Scene.

(** * Properties *)

Example scene_ids :
  dom (jointobjs Scene.heap) = list_to_set [0; 1; 2; 3; 4; 5; 6; 7].
Proof. vm_compute. reflexivity. Qed.

(** ** Numbers *)

Lemma SFcompare_Lt_Gt (a b : spec_float) :
  SFcompare a b = Some Lt -> SFcompare b a = Some Gt.
Proof.
  destruct a as [sa|sa| |sa ma ea], b as [sb|sb| |sb mb eb]; cbn;
    try destruct sa; try destruct sb; try congruence.
  - rewrite (Z.compare_antisym ea eb).
    destruct (ea ?= eb)%Z; cbn; try congruence.
    rewrite !Pos.compare_cont_spec. cbn.
    rewrite (Pos.compare_antisym ma mb).
    destruct (ma ?= mb)%positive; cbn; congruence.
  - rewrite (Z.compare_antisym ea eb).
    destruct (ea ?= eb)%Z; cbn; try congruence.
    rewrite !Pos.compare_cont_spec. cbn.
    rewrite (Pos.compare_antisym ma mb).
    destruct (ma ?= mb)%positive; cbn; congruence.
Qed.

Lemma ltb_not_leb (x y : float) :
  (x <? y)%float = true -> (y <=? x)%float = false.
Proof.
  rewrite ltb_spec, leb_spec. unfold SFltb, SFleb.
  destruct (SFcompare (Prim2SF x) (Prim2SF y)) as [[]|] eqn:E; try discriminate.
  intros _. now rewrite (SFcompare_Lt_Gt _ _ E).
Qed.

(** A number strictly outside a range fails the range check. *)
Lemma outside_not_in_range (r : float * float) (x : float) :
  outside r x = true -> in_range r x = false.
Proof.
  unfold outside, in_range. intros [E|E]%orb_true_iff.
  - now rewrite (ltb_not_leb _ _ E).
  - rewrite (ltb_not_leb _ _ E). apply andb_false_r.
Qed.

Lemma Prim2SF_add_0_l (x : float) :
  Prim2SF (0 + x)%float =
  match Prim2SF x with S754_zero _ => S754_zero false | y => y end.
Proof.
  rewrite add_spec. change (Prim2SF 0) with (S754_zero false).
  now destruct (Prim2SF x) as [[]|[]| |].
Qed.

Lemma neg_zero_dec (x : float) : {x = (-0)%float} + {Prim2SF x <> S754_zero true}.
Proof.
  destruct (Prim2SF x) as [[]|s| |s m e] eqn:E;
    try (right; congruence).
  left. apply Prim2SF_inj. now rewrite E.
Qed.

(** [sum((lo, hi))] is [lo + hi], but for the sign of a zero. *)
Lemma py_sum_add (r : float * float) :
  py_sum r = (r.1 + r.2)%float \/ r = ((-0)%float, (-0)%float).
Proof.
  destruct r as [lo hi]. unfold py_sum. cbn [fst snd].
  destruct (neg_zero_dec lo) as [->|Hlo].
  - destruct (neg_zero_dec hi) as [->|Hhi]; [ now right | left ].
    apply Prim2SF_inj. rewrite !add_spec.
    change (Prim2SF (0 + -0)) with (S754_zero false).
    change (Prim2SF (-0)) with (S754_zero true).
    now destruct (Prim2SF hi) as [[]|[]| |].
  - left. f_equal. apply Prim2SF_inj. rewrite Prim2SF_add_0_l.
    now destruct (Prim2SF lo) as [[]|[]| |].
Qed.

(** ** Running statements *)

Section Run.
Context `{K : Kernel}.

Lemma run_bind {A B} (m : M A) (f : A -> M B) (h : Heap) :
  (m ≫= f) h =
  match m h with
  | Return a h' => f a h'
  | Raise e h' => Raise e h'
  | Stuck => Stuck
  end.
Proof. reflexivity. Qed.

Lemma run_get_joint (j : joint_id) (J : Joint) (h : Heap) :
  jointobjs h !! j = Some J -> get_joint j h = Return J h.
Proof. intros E. unfold get_joint. now rewrite E. Qed.

Lemma run_get_body (b : body_id) (B : Body) (h : Heap) :
  bodies h !! b = Some B -> get_body b h = Return B h.
Proof. intros E. unfold get_body. now rewrite E. Qed.

Lemma run_locate (b : body_id) (B : Body) (l : Location) (h : Heap) :
  bodies h !! b = Some B ->
  locate b l h =
  Return () (Build_Heap (<[b := set_location l B]> (bodies h)) (jointobjs h)).
Proof.
  intros E. unfold locate. rewrite run_bind, (run_get_body _ _ _ E).
  reflexivity.
Qed.

Lemma run_assign_connected_to (self other : joint_id) (S : Joint) (h : Heap) :
  jointobjs h !! self = Some S ->
  assign_connected_to self other h =
  Return () (Build_Heap (bodies h)
               (<[self := set_connected_to (Some other) S]> (jointobjs h))).
Proof.
  intros E. unfold assign_connected_to.
  rewrite run_bind, (run_get_joint _ _ _ E). reflexivity.
Qed.

Lemma relative_location_Rigid (J : Joint) (r : RigidJoint.fields) (h : Heap) :
  subclass J = Rigid r ->
  relative_location J h = Return (RigidJoint.relative_location r) h.
Proof. intros E. unfold relative_location. now rewrite E. Qed.

Lemma is_Rigid_true (J : Joint) (r : RigidJoint.fields) :
  subclass J = Rigid r -> is_Rigid J = true.
Proof. intros E. unfold is_Rigid. now rewrite E. Qed.

End Run.

(** ** RevoluteJoint *)

Section Revolute.
Context `{K : Kernel}.

Variables (h : Heap) (self other : joint_id) (S O : Joint).
Variables (r : RevoluteJoint.fields) (ro : RigidJoint.fields) (P B : Body).
Hypothesis HS : jointobjs h !! self = Some S.
Hypothesis ES : subclass S = Revolute r.
Hypothesis HO : jointobjs h !! other = Some O.

Lemma RevoluteJoint_connect_to_TypeError (angle : option float) :
  is_Rigid O = false ->
  RevoluteJoint_connect_to self other angle h = Raise TypeError h.
Proof.
  intros E. unfold RevoluteJoint_connect_to.
  rewrite run_bind, (run_get_joint _ _ _ HS), ES.
  rewrite run_bind, (run_get_joint _ _ _ HO), E. reflexivity.
Qed.

Hypothesis EO : subclass O = Rigid ro.

Lemma RevoluteJoint_connect_to_ValueError (angle : option float) :
  in_range (RevoluteJoint.range r)
    (default (RevoluteJoint.range r).1 angle) = false ->
  RevoluteJoint_connect_to self other angle h = Raise ValueError h.
Proof.
  intros E. unfold RevoluteJoint_connect_to.
  rewrite run_bind, (run_get_joint _ _ _ HS), ES.
  rewrite run_bind, (run_get_joint _ _ _ HO), (is_Rigid_true _ _ EO).
  cbn [negb]. rewrite E. reflexivity.
Qed.

Hypothesis HP : bodies h !! parent S = Some P.
Hypothesis HB : bodies h !! parent O = Some B.

Lemma RevoluteJoint_connect_to_Return (angle : option float) :
  let a := default (RevoluteJoint.range r).1 angle in
  in_range (RevoluteJoint.range r) a = true ->
  RevoluteJoint_connect_to self other angle h =
  Return ()
    (connected h (parent O) B
       (RevoluteJoint_new_location P r ro
          (if (a =? 0)%float then 360%float else a))
       self (set_subclass (Revolute (RevoluteJoint.set_angle (Some a) r)) S)
       other).
Proof.
  intros a E. unfold RevoluteJoint_connect_to.
  rewrite run_bind, (run_get_joint _ _ _ HS), ES.
  rewrite run_bind, (run_get_joint _ _ _ HO), (is_Rigid_true _ _ EO).
  cbn [negb]. fold a. rewrite E. cbn [negb].
  rewrite run_bind. cbn [put_joint].
  rewrite run_bind, (run_get_body _ P) by exact HP.
  rewrite run_bind, (relative_location_Rigid _ _ _ EO).
  rewrite run_bind, (run_locate _ B) by exact HB.
  erewrite run_assign_connected_to by apply lookup_insert_eq.
  unfold connected. cbn [bodies jointobjs]. now rewrite insert_insert_eq.
Qed.

End Revolute.

(** ** RigidJoint with any partner *)

Section Rigid.
Context `{K : Kernel}.
Variables (h : Heap) (self other : joint_id) (S O : Joint).
Variables (rs : RigidJoint.fields) (P B : Body).
Hypothesis HS : jointobjs h !! self = Some S.
Hypothesis ES : subclass S = Rigid rs.
Hypothesis HO : jointobjs h !! other = Some O.
Hypothesis HP : bodies h !! parent S = Some P.

(** A partner without a [relative_location] is not refused as a partner
    of the wrong type: reading the attribute fails. *)
Lemma RigidJoint_connect_to_AttributeError :
  match subclass O with Rigid _ | Ball _ => False | _ => True end ->
  RigidJoint_connect_to self other h = Raise AttributeError h.
Proof.
  intros E. unfold RigidJoint_connect_to.
  rewrite run_bind, (run_get_joint _ _ _ HS), ES.
  rewrite run_bind, (run_get_joint _ _ _ HO).
  rewrite run_bind, (run_get_body _ _ _ HP).
  rewrite run_bind. unfold relative_location.
  now destruct (subclass O).
Qed.

(** A ball joint has one, and is connected as a rigid joint would be. *)
Lemma RigidJoint_connect_to_Ball (rb : BallJoint.fields) :
  subclass O = Ball rb ->
  bodies h !! parent O = Some B ->
  RigidJoint_connect_to self other h =
  Return ()
    (connected h (parent O) B
       (location P * RigidJoint.relative_location rs
        * BallJoint.relative_location rb)%loc
       self S other).
Proof.
  intros EO HB. unfold RigidJoint_connect_to.
  rewrite run_bind, (run_get_joint _ _ _ HS), ES.
  rewrite run_bind, (run_get_joint _ _ _ HO).
  rewrite run_bind, (run_get_body _ _ _ HP).
  rewrite run_bind. unfold relative_location at 1. rewrite EO.
  cbn [mret M_ret].
  rewrite run_bind, (run_locate _ _ _ _ HB).
  now rewrite (run_assign_connected_to _ _ S).
Qed.

End Rigid.

(** ** LinearJoint *)

Section Linear.
Context `{K : Kernel}.
Variables (h : Heap) (self : joint_id) (S : Joint) (r : LinearJoint.fields).
Variables (args : list pyval) (kwargs : gmap string pyval).
Hypothesis HS : jointobjs h !! self = Some S.
Hypothesis ES : subclass S = Linear r.

Lemma number_or_pyval_of (d : float) (x : option float) (h0 : Heap) :
  number_or d (pyval_of x) h0 = Return (default d x) h0.
Proof. now destruct x. Qed.

Lemma LinearJoint_connect_to_no_joint (other position angle : pyval) :
  parse_args args kwargs = (other, position, angle) ->
  match other with PyJoint _ => False | _ => True end ->
  LinearJoint_connect_to self args kwargs h = Raise TypeError h.
Proof.
  intros Eargs E. unfold LinearJoint_connect_to. rewrite Eargs.
  rewrite run_bind, (run_get_joint _ _ _ HS), ES.
  now destruct other.
Qed.

Variables (other : joint_id) (O : Joint) (position angle : option float).
Hypothesis Eargs :
  parse_args args kwargs = (PyJoint other, pyval_of position, pyval_of angle).
Hypothesis HO : jointobjs h !! other = Some O.

Lemma LinearJoint_connect_to_TypeError :
  is_Rigid O || is_Revolute O = false ->
  LinearJoint_connect_to self args kwargs h = Raise TypeError h.
Proof.
  intros E. unfold LinearJoint_connect_to. rewrite Eargs.
  rewrite run_bind, (run_get_joint _ _ _ HS), ES.
  rewrite run_bind, (run_get_joint _ _ _ HO), E. reflexivity.
Qed.

Local Abbreviation p := (default (midpoint (LinearJoint.range r)) position).

Lemma LinearJoint_connect_to_ValueError_position :
  is_Rigid O || is_Revolute O = true ->
  in_range (LinearJoint.range r) p = false ->
  LinearJoint_connect_to self args kwargs h = Raise ValueError h.
Proof.
  intros EO E. unfold LinearJoint_connect_to. rewrite Eargs.
  rewrite run_bind, (run_get_joint _ _ _ HS), ES.
  rewrite run_bind, (run_get_joint _ _ _ HO), EO. cbn [negb].
  rewrite run_bind, number_or_pyval_of. fold (midpoint (LinearJoint.range r)).
  now rewrite E.
Qed.

Hypothesis Ep : in_range (LinearJoint.range r) p = true.
Variables (P B : Body).
Hypothesis HP : bodies h !! parent S = Some P.
Hypothesis HB : bodies h !! parent O = Some B.

Lemma LinearJoint_connect_to_Rigid (ro : RigidJoint.fields) :
  subclass O = Rigid ro ->
  LinearJoint_connect_to self args kwargs h =
  Return ()
    (connected h (parent O) B (LinearJoint_new_location P r p Location_new)
       self
       (set_subclass
          (Linear (LinearJoint.set_angle (Some 0%float)
                     (LinearJoint.set_position (Some p) r))) S)
       other).
Proof.
  intros EO. unfold LinearJoint_connect_to. rewrite Eargs.
  rewrite run_bind, (run_get_joint _ _ _ HS), ES.
  rewrite run_bind, (run_get_joint _ _ _ HO), (is_Rigid_true _ _ EO).
  cbn [negb orb].
  rewrite run_bind, number_or_pyval_of. fold (midpoint (LinearJoint.range r)).
  rewrite Ep. cbn [negb].
  rewrite run_bind. cbn [put_joint]. rewrite EO.
  rewrite run_bind. cbn [mret M_ret].
  rewrite run_bind. cbn [put_joint].
  rewrite run_bind, (run_get_body _ P) by exact HP.
  rewrite run_bind, (run_locate _ B) by exact HB.
  erewrite run_assign_connected_to by apply lookup_insert_eq.
  unfold connected. cbn [bodies jointobjs]. now rewrite !insert_insert_eq.
Qed.

Variable ro : RevoluteJoint.fields.
Hypothesis EO : subclass O = Revolute ro.

Local Abbreviation a := (default (RevoluteJoint.range ro).1 angle).

Lemma is_Revolute_true : is_Rigid O || is_Revolute O = true.
Proof. unfold is_Rigid, is_Revolute. now rewrite EO. Qed.

(** The angle is checked once the position has been recorded. *)
Lemma LinearJoint_connect_to_ValueError_angle :
  in_range (RevoluteJoint.range ro) a = false ->
  LinearJoint_connect_to self args kwargs h =
  Raise ValueError
    (Build_Heap (bodies h)
       (<[self := set_subclass
                    (Linear (LinearJoint.set_position (Some p) r)) S]>
          (jointobjs h))).
Proof.
  intros E. unfold LinearJoint_connect_to. rewrite Eargs.
  rewrite run_bind, (run_get_joint _ _ _ HS), ES.
  rewrite run_bind, (run_get_joint _ _ _ HO), is_Revolute_true.
  cbn [negb].
  rewrite run_bind, number_or_pyval_of. fold (midpoint (LinearJoint.range r)).
  rewrite Ep. cbn [negb].
  rewrite run_bind. cbn [put_joint]. rewrite EO.
  rewrite run_bind, run_bind, number_or_pyval_of. now rewrite E.
Qed.

Lemma LinearJoint_connect_to_Revolute :
  in_range (RevoluteJoint.range ro) a = true ->
  LinearJoint_connect_to self args kwargs h =
  Return ()
    (connected h (parent O) B
       (LinearJoint_new_location P r p (pin_rotation ro a))
       self
       (set_subclass
          (Linear (LinearJoint.set_angle (Some a)
                     (LinearJoint.set_position (Some p) r))) S)
       other).
Proof.
  intros E. unfold LinearJoint_connect_to. rewrite Eargs.
  rewrite run_bind, (run_get_joint _ _ _ HS), ES.
  rewrite run_bind, (run_get_joint _ _ _ HO), is_Revolute_true.
  cbn [negb].
  rewrite run_bind, number_or_pyval_of. fold (midpoint (LinearJoint.range r)).
  rewrite Ep. cbn [negb].
  rewrite run_bind. cbn [put_joint]. rewrite EO.
  rewrite run_bind, run_bind, number_or_pyval_of. rewrite E.
  cbn [negb mret M_ret].
  rewrite run_bind. cbn [put_joint].
  rewrite run_bind, (run_get_body _ P) by exact HP.
  rewrite run_bind, (run_locate _ B) by exact HB.
  erewrite run_assign_connected_to by apply lookup_insert_eq.
  unfold connected. cbn [bodies jointobjs]. now rewrite !insert_insert_eq.
Qed.

End Linear.

(** ** CylindricalJoint *)

Section Cylindrical.
Context `{K : Kernel}.
Variables (h : Heap) (self other : joint_id) (S O : Joint).
Variables (r : CylindricalJoint.fields) (position angle : option float).
Hypothesis HS : jointobjs h !! self = Some S.
Hypothesis ES : subclass S = Cylindrical r.
Hypothesis HO : jointobjs h !! other = Some O.

Lemma CylindricalJoint_connect_to_TypeError :
  is_Rigid O = false ->
  CylindricalJoint_connect_to self other position angle h = Raise TypeError h.
Proof.
  intros E. unfold CylindricalJoint_connect_to.
  rewrite run_bind, (run_get_joint _ _ _ HS), ES.
  rewrite run_bind, (run_get_joint _ _ _ HO), E. reflexivity.
Qed.

Variable ro : RigidJoint.fields.
Hypothesis EO : subclass O = Rigid ro.

Local Abbreviation p :=
  (default (midpoint (CylindricalJoint.linear_range r)) position).
Local Abbreviation a :=
  (default (midpoint (CylindricalJoint.rotational_range r)) angle).

Lemma CylindricalJoint_connect_to_ValueError_position :
  in_range (CylindricalJoint.linear_range r) p = false ->
  CylindricalJoint_connect_to self other position angle h =
  Raise ValueError h.
Proof.
  intros E. unfold CylindricalJoint_connect_to.
  rewrite run_bind, (run_get_joint _ _ _ HS), ES.
  rewrite run_bind, (run_get_joint _ _ _ HO), (is_Rigid_true _ _ EO).
  cbn [negb]. fold (midpoint (CylindricalJoint.linear_range r)).
  now rewrite E.
Qed.

Hypothesis Ep : in_range (CylindricalJoint.linear_range r) p = true.

(** The angle is checked once the position has been recorded. *)
Lemma CylindricalJoint_connect_to_ValueError_angle :
  in_range (CylindricalJoint.rotational_range r) a = false ->
  CylindricalJoint_connect_to self other position angle h =
  Raise ValueError
    (Build_Heap (bodies h)
       (<[self := set_subclass
                    (Cylindrical (CylindricalJoint.set_position (Some p) r))
                    S]>
          (jointobjs h))).
Proof.
  intros E. unfold CylindricalJoint_connect_to.
  rewrite run_bind, (run_get_joint _ _ _ HS), ES.
  rewrite run_bind, (run_get_joint _ _ _ HO), (is_Rigid_true _ _ EO).
  cbn [negb]. fold (midpoint (CylindricalJoint.linear_range r)).
  rewrite Ep. cbn [negb].
  rewrite run_bind. cbn [put_joint].
  cbn [CylindricalJoint.rotational_range CylindricalJoint.set_position].
  fold (midpoint (CylindricalJoint.rotational_range r)).
  now rewrite E.
Qed.

Variables (P B : Body).
Hypothesis HP : bodies h !! parent S = Some P.
Hypothesis HB : bodies h !! parent O = Some B.

Lemma CylindricalJoint_connect_to_Return :
  in_range (CylindricalJoint.rotational_range r) a = true ->
  CylindricalJoint_connect_to self other position angle h =
  Return ()
    (connected h (parent O) B (CylindricalJoint_new_location P r p a)
       self
       (set_subclass
          (Cylindrical (CylindricalJoint.set_angle (Some a)
                          (CylindricalJoint.set_position (Some p) r))) S)
       other).
Proof.
  intros E. unfold CylindricalJoint_connect_to.
  rewrite run_bind, (run_get_joint _ _ _ HS), ES.
  rewrite run_bind, (run_get_joint _ _ _ HO), (is_Rigid_true _ _ EO).
  cbn [negb]. fold (midpoint (CylindricalJoint.linear_range r)).
  rewrite Ep. cbn [negb].
  rewrite run_bind. cbn [put_joint].
  cbn [CylindricalJoint.rotational_range CylindricalJoint.set_position].
  fold (midpoint (CylindricalJoint.rotational_range r)).
  rewrite E. cbn [negb].
  rewrite run_bind. cbn [put_joint].
  rewrite run_bind, (run_get_body _ P) by exact HP.
  rewrite run_bind, (run_locate _ B) by exact HB.
  erewrite run_assign_connected_to by apply lookup_insert_eq.
  unfold connected. cbn [bodies jointobjs]. now rewrite !insert_insert_eq.
Qed.

End Cylindrical.

(** ** BallJoint *)

Section Ball.
Context `{K : Kernel}.
Variables (h : Heap) (self other : joint_id) (S O : Joint).
Variables (r : BallJoint.fields) (angles : option (float * float * float)).
Hypothesis HS : jointobjs h !! self = Some S.
Hypothesis ES : subclass S = Ball r.
Hypothesis HO : jointobjs h !! other = Some O.

Lemma BallJoint_connect_to_TypeError :
  is_Rigid O = false ->
  BallJoint_connect_to self other angles h = Raise TypeError h.
Proof.
  intros E. unfold BallJoint_connect_to.
  rewrite run_bind, (run_get_joint _ _ _ HS), ES.
  rewrite run_bind, (run_get_joint _ _ _ HO), E. reflexivity.
Qed.

Variable ro : RigidJoint.fields.
Hypothesis EO : subclass O = Rigid ro.

Local Abbreviation rotation := (BallJoint_rotation r angles).

Lemma BallJoint_connect_to_ValueError :
  orientation_in_range (BallJoint.angle_range r)
    (Location_orientation rotation) = false ->
  BallJoint_connect_to self other angles h = Raise ValueError h.
Proof.
  intros E. unfold BallJoint_connect_to.
  rewrite run_bind, (run_get_joint _ _ _ HS), ES.
  rewrite run_bind, (run_get_joint _ _ _ HO), (is_Rigid_true _ _ EO).
  cbn [negb]. now rewrite E.
Qed.

Variables (P B : Body).
Hypothesis HP : bodies h !! parent S = Some P.
Hypothesis HB : bodies h !! parent O = Some B.

Lemma BallJoint_connect_to_Return :
  orientation_in_range (BallJoint.angle_range r)
    (Location_orientation rotation) = true ->
  BallJoint_connect_to self other angles h =
  Return ()
    (connected h (parent O) B (BallJoint_new_location P r ro rotation)
       self S other).
Proof.
  intros E. unfold BallJoint_connect_to.
  rewrite run_bind, (run_get_joint _ _ _ HS), ES.
  rewrite run_bind, (run_get_joint _ _ _ HO), (is_Rigid_true _ _ EO).
  cbn [negb]. rewrite E. cbn [negb].
  rewrite run_bind, (run_get_body _ P) by exact HP.
  rewrite run_bind, (relative_location_Rigid _ _ _ EO).
  rewrite run_bind, (run_locate _ B) by exact HB.
  now rewrite (run_assign_connected_to _ _ S).
Qed.

End Ball.

(** ** Constructors *)

Section Constructors.
Context `{K : Kernel}.
Variables (h : Heap) (label : string) (to_part : body_id) (B : Body).
Hypothesis HB : bodies h !! to_part = Some B.

Lemma run_register (J : Joint) (k : joint_id -> M joint_id) :
  (self ← alloc J; register to_part label self;; k self) h =
  k (fresh (dom (jointobjs h))) (constructed h label to_part B J).
Proof.
  rewrite run_bind. cbn [alloc]. rewrite run_bind. unfold register.
  rewrite run_bind, (run_get_body _ B) by exact HB. reflexivity.
Qed.

Variables (axis : Axis) (range : float * float).

Local Abbreviation relative_axis :=
  (Axis_located axis (Location_inverse (location B))).

Lemma RevoluteJoint_init_ValueError (angle_reference : Vector) :
  Axis_is_normal axis (Axis_new origin angle_reference) = false ->
  RevoluteJoint_init label to_part axis (Some angle_reference) range h =
  Raise ValueError h.
Proof.
  intros E. unfold RevoluteJoint_init. rewrite run_bind, E. reflexivity.
Qed.

Lemma RevoluteJoint_init_supplied (angle_reference : Vector) :
  Axis_is_normal axis (Axis_new origin angle_reference) = true ->
  RevoluteJoint_init label to_part axis (Some angle_reference) range h =
  Return (fresh (dom (jointobjs h)))
    (constructed h label to_part B
       (Build_Joint label to_part to_part None
          (Revolute (RevoluteJoint.Build range angle_reference None
                       relative_axis)))).
Proof.
  intros E. unfold RevoluteJoint_init. rewrite run_bind, E. cbn [negb].
  cbn [mret M_ret]. rewrite run_bind, (run_get_body _ B) by exact HB.
  now rewrite run_register.
Qed.

Lemma RevoluteJoint_init_derived :
  RevoluteJoint_init label to_part axis None range h =
  Return (fresh (dom (jointobjs h)))
    (constructed h label to_part B
       (Build_Joint label to_part to_part None
          (Revolute
             (RevoluteJoint.Build range
                (Plane_x_dir (Plane_new_z origin (Axis_direction axis)))
                None relative_axis)))).
Proof.
  unfold RevoluteJoint_init. rewrite run_bind.
  cbn [mret M_ret]. rewrite run_bind, (run_get_body _ B) by exact HB.
  now rewrite run_register.
Qed.

Variable rotational_range : float * float.

Lemma CylindricalJoint_init_derived :
  CylindricalJoint_init label to_part axis None range rotational_range h =
  Return (fresh (dom (jointobjs h)))
    (constructed h label to_part B
       (Build_Joint label to_part to_part None
          (Cylindrical
             (CylindricalJoint.Build axis None None
                (Plane_x_dir (Plane_new_z origin (Axis_direction axis)))
                rotational_range range relative_axis None None)))).
Proof.
  unfold CylindricalJoint_init. rewrite run_bind.
  cbn [mret M_ret]. rewrite run_bind, (run_get_body _ B) by exact HB.
  now rewrite run_register.
Qed.

End Constructors.

(** A supplied reference never gets as far as the test of normality: the
    test reads [self.angle_reference], which is assigned only after it. *)
Lemma CylindricalJoint_init_AttributeError `{K : Kernel}
    (h : Heap) (label : string) (to_part : body_id) (axis : Axis)
    (angle_reference : Vector) (linear_range rotational_range : float * float) :
  CylindricalJoint_init label to_part axis (Some angle_reference)
    linear_range rotational_range h =
  Raise AttributeError h.
Proof. reflexivity. Qed.
(** ** RigidJoint *)

(** C2. Connecting two rigid joints puts the partner's body at
    [self.parent.location * self.relative_location * other.relative_location];
    when the two joints sit on two bodies, a second call leaves the heap,
    and with it the partner's placement, as the first call left it. *)
Theorem RigidJoint_connect_to_closed_form `{K : Kernel}
    (h : Heap) (self other : joint_id) (S O : Joint)
    (rs ro : RigidJoint.fields) (P B : Body) :
  jointobjs h !! self = Some S -> subclass S = Rigid rs ->
  jointobjs h !! other = Some O -> subclass O = Rigid ro ->
  bodies h !! parent S = Some P ->
  bodies h !! parent O = Some B ->
  let placement :=
    (location P * RigidJoint.relative_location rs
     * RigidJoint.relative_location ro)%loc in
  exists h1,
    RigidJoint_connect_to self other h = Return () h1 /\
    bodies h1 !! parent O = Some (set_location placement B) /\
    (parent S <> parent O ->
     RigidJoint_connect_to self other h1 = Return () h1).
Proof.
  intros HS ES HO EO HP HB placement.
  assert (Hrun : forall h0 S0 B0,
    jointobjs h0 !! self = Some S0 -> subclass S0 = Rigid rs ->
    parent S0 = parent S ->
    jointobjs h0 !! other = Some O ->
    bodies h0 !! parent S = Some P -> bodies h0 !! parent O = Some B0 ->
    RigidJoint_connect_to self other h0 =
    Return () (Build_Heap (<[parent O := set_location placement B0]> (bodies h0))
                 (<[self := set_connected_to (Some other) S0]> (jointobjs h0)))).
  { intros h0 S0 B0 HS0 ES0 EP0 HO0 HP0 HB0. unfold RigidJoint_connect_to.
    rewrite run_bind, (run_get_joint _ _ _ HS0), ES0.
    rewrite run_bind, (run_get_joint _ _ _ HO0), EP0.
    rewrite run_bind, (run_get_body _ _ _ HP0).
    rewrite run_bind, (relative_location_Rigid _ _ _ EO).
    rewrite run_bind, (run_locate _ _ _ _ HB0).
    now rewrite (run_assign_connected_to _ _ S0). }
  eexists. split; [ apply (Hrun h S B HS ES eq_refl HO HP HB) | ].
  cbn [bodies]. split; [ apply lookup_insert_eq | ].
  intros Hne.
  assert (other <> self) as Hneq by (intros ->; congruence).
  rewrite (Hrun _ (set_connected_to (Some other) S) (set_location placement B)); cbn.
  - now rewrite !insert_insert_eq.
  - apply lookup_insert_eq.
  - exact ES.
  - reflexivity.
  - now rewrite lookup_insert_ne.
  - now rewrite lookup_insert_ne.
  - apply lookup_insert_eq.
Qed.

Lemma RigidJoint_connect_to_closed_form_witness :
  exists h1,
    RigidJoint_connect_to 0 1 Scene.heap = Return () h1 /\
    location <$> bodies h1 !! Scene.arm =
      Some (SL_mul
              (SL_mul (SL_of_Vector (SV_xyz 1 1 1))
                 (SL_relative_to (SL_of_Vector (SV_xyz 5 0 0))
                    (SL_of_Vector (SV_xyz 1 1 1))))
              (SL_relative_to (SL_of_Vector (SV_xyz 0 0 5)) SL_new)) /\
    RigidJoint_connect_to 0 1 h1 = Return () h1.
Proof.
  destruct (RigidJoint_connect_to_closed_form (K := SymKernel) Scene.heap 0 1
              _ _ _ _ _ _
              eq_refl eq_refl eq_refl eq_refl eq_refl eq_refl)
    as (h1 & Hrun & Hloc & Hagain).
  exists h1. split; [ exact Hrun | ]. split.
  - exact (f_equal (fmap location) Hloc).
  - apply Hagain. vm_compute. discriminate.
Defined.


(** ** RevoluteJoint: the angles 0 and 360 *)

(** C3. On a hinge whose range holds both 0 and 360, connecting a rigid
    partner at angle 0 and connecting it at angle 360 put every body,
    the partner's among them, at the same location: the one computed for
    360 degrees. *)
Theorem RevoluteJoint_connect_to_0_360 `{K : Kernel}
    (h : Heap) (self other : joint_id) (S O : Joint)
    (r : RevoluteJoint.fields) (ro : RigidJoint.fields) (P B : Body) :
  jointobjs h !! self = Some S -> subclass S = Revolute r ->
  jointobjs h !! other = Some O -> subclass O = Rigid ro ->
  bodies h !! parent S = Some P ->
  bodies h !! parent O = Some B ->
  in_range (RevoluteJoint.range r) 0 = true ->
  in_range (RevoluteJoint.range r) 360 = true ->
  exists h0 h360,
    RevoluteJoint_connect_to self other (Some 0%float) h = Return () h0 /\
    RevoluteJoint_connect_to self other (Some 360%float) h = Return () h360 /\
    bodies h0 = bodies h360 /\
    placement h0 (parent O) = placement h360 (parent O) /\
    placement h360 (parent O) = Some (RevoluteJoint_new_location P r ro 360).
Proof.
  intros HS ES HO EO HP HB E0 E360.
  eexists. eexists.
  split; [ now apply (RevoluteJoint_connect_to_Return h self other S O r ro P B) | ].
  split; [ now apply (RevoluteJoint_connect_to_Return h self other S O r ro P B) | ].
  cbn [default]. change (0 =? 0)%float with true.
  change (360 =? 0)%float with false. cbv iota.
  split; [ reflexivity | ]. split; [ reflexivity | ].
  unfold placement, connected. cbn [bodies].
  now rewrite lookup_insert_eq.
Qed.

Lemma RevoluteJoint_connect_to_0_360_witness :
  exists h0 h360,
    RevoluteJoint_connect_to 2 1 (Some 0%float) Scene.heap = Return () h0 /\
    RevoluteJoint_connect_to 2 1 (Some 360%float) Scene.heap = Return () h360 /\
    placement h0 Scene.arm = placement h360 Scene.arm.
Proof.
  destruct (RevoluteJoint_connect_to_0_360 (K := SymKernel) Scene.heap 2 1
              _ _ _ _ _ _
              eq_refl eq_refl eq_refl eq_refl eq_refl eq_refl
              eq_refl eq_refl)
    as (h0 & h360 & H0 & H360 & _ & Hsame & _).
  exists h0, h360. split; [ exact H0 | ]. split; [ exact H360 | exact Hsame ].
Defined.

(** C10. A successful connection at angle 0 records the angle 0, the
    value the caller gave, while the partner is placed with the rotation
    of 360 degrees. *)
Theorem RevoluteJoint_connect_to_records_0 `{K : Kernel}
    (h : Heap) (self other : joint_id) (S O : Joint)
    (r : RevoluteJoint.fields) (ro : RigidJoint.fields) (P B : Body) :
  jointobjs h !! self = Some S -> subclass S = Revolute r ->
  jointobjs h !! other = Some O -> subclass O = Rigid ro ->
  bodies h !! parent S = Some P ->
  bodies h !! parent O = Some B ->
  in_range (RevoluteJoint.range r) 0 = true ->
  exists h',
    RevoluteJoint_connect_to self other (Some 0%float) h = Return () h' /\
    recorded h' self = Some (None, Some 0%float) /\
    placement h' (parent O) = Some (RevoluteJoint_new_location P r ro 360).
Proof.
  intros HS ES HO EO HP HB E0.
  eexists.
  split; [ now apply (RevoluteJoint_connect_to_Return h self other S O r ro P B) | ].
  cbn [default]. change (0 =? 0)%float with true. cbv iota.
  unfold recorded, placement, connected. cbn [bodies jointobjs].
  now rewrite !lookup_insert_eq.
Qed.

Lemma RevoluteJoint_connect_to_records_0_witness :
  exists h',
    RevoluteJoint_connect_to 2 1 (Some 0%float) Scene.heap = Return () h' /\
    recorded h' 2 = Some (None, Some 0%float).
Proof.
  destruct (RevoluteJoint_connect_to_records_0 (K := SymKernel) Scene.heap 2 1
              _ _ _ _ _ _
              eq_refl eq_refl eq_refl eq_refl eq_refl eq_refl eq_refl)
    as (h' & Hrun & Hrec & _).
  exists h'. split; [ exact Hrun | exact Hrec ].
Defined.

(** ** Range errors *)

Lemma orientation_outside `{K : Kernel}
    (rg : (float * float) * (float * float) * (float * float)) (o : Vector) :
  outside rg.1.1 (Vector_X o) = true \/
  outside rg.1.2 (Vector_Y o) = true \/
  outside rg.2 (Vector_Z o) = true ->
  orientation_in_range rg o = false.
Proof.
  unfold orientation_in_range. cbn [forallb].
  intros [E|[E|E]]; rewrite (outside_not_in_range _ _ E);
    rewrite ?andb_false_r; reflexivity.
Qed.

(** C1, as the code has it. With a partner of a class the method
    accepts, a parameter strictly outside its range makes [connect_to]
    raise [ValueError]; for a ball joint the numbers checked are not the
    angles given but the components of the orientation of the rotation
    made of them.  No body has moved
    and no [connected_to] has changed then.  The recorded parameters are
    as before too, with one exception: a linear joint with a revolute
    partner, and a cylindrical joint, whose position is in range and whose
    angle is not, have recorded the position when the angle is refused. *)
Theorem ValueError_state `{K : Kernel}
    (h : Heap) (self other : joint_id) (S O : Joint) :
  jointobjs h !! self = Some S ->
  jointobjs h !! other = Some O ->
  (forall r ro angle,
     subclass S = Revolute r -> subclass O = Rigid ro ->
     outside (RevoluteJoint.range r)
       (default (RevoluteJoint.range r).1 angle) = true ->
     RevoluteJoint_connect_to self other angle h = Raise ValueError h) /\
  (forall r args kwargs position angle,
     subclass S = Linear r -> is_Rigid O || is_Revolute O = true ->
     parse_args args kwargs
       = (PyJoint other, pyval_of position, pyval_of angle) ->
     outside (LinearJoint.range r)
       (default (midpoint (LinearJoint.range r)) position) = true ->
     LinearJoint_connect_to self args kwargs h = Raise ValueError h) /\
  (forall r ro args kwargs position angle,
     subclass S = Linear r -> subclass O = Revolute ro ->
     parse_args args kwargs
       = (PyJoint other, pyval_of position, pyval_of angle) ->
     let p := default (midpoint (LinearJoint.range r)) position in
     in_range (LinearJoint.range r) p = true ->
     outside (RevoluteJoint.range ro)
       (default (RevoluteJoint.range ro).1 angle) = true ->
     LinearJoint_connect_to self args kwargs h =
     Raise ValueError
       (with_subclass h self S
          (Linear (LinearJoint.set_position (Some p) r)))) /\
  (forall r ro position angle,
     subclass S = Cylindrical r -> subclass O = Rigid ro ->
     outside (CylindricalJoint.linear_range r)
       (default (midpoint (CylindricalJoint.linear_range r)) position)
       = true ->
     CylindricalJoint_connect_to self other position angle h =
     Raise ValueError h) /\
  (forall r ro position angle,
     subclass S = Cylindrical r -> subclass O = Rigid ro ->
     let p :=
       default (midpoint (CylindricalJoint.linear_range r)) position in
     in_range (CylindricalJoint.linear_range r) p = true ->
     outside (CylindricalJoint.rotational_range r)
       (default (midpoint (CylindricalJoint.rotational_range r)) angle)
       = true ->
     CylindricalJoint_connect_to self other position angle h =
     Raise ValueError
       (with_subclass h self S
          (Cylindrical (CylindricalJoint.set_position (Some p) r)))) /\
  (forall r ro angles,
     subclass S = Ball r -> subclass O = Rigid ro ->
     let o := Location_orientation (BallJoint_rotation r angles) in
     outside (BallJoint.angle_range r).1.1 (Vector_X o) = true \/
     outside (BallJoint.angle_range r).1.2 (Vector_Y o) = true \/
     outside (BallJoint.angle_range r).2 (Vector_Z o) = true ->
     BallJoint_connect_to self other angles h = Raise ValueError h).
Proof.
  intros HS HO. repeat split.
  - intros r ro angle ES EO E.
    apply (RevoluteJoint_connect_to_ValueError h self other S O r ro HS ES HO EO).
    now apply outside_not_in_range.
  - intros r args kwargs position angle ES EO Eargs E.
    apply (LinearJoint_connect_to_ValueError_position h self S r args kwargs
             HS ES other O position angle Eargs HO EO).
    now apply outside_not_in_range.
  - intros r ro args kwargs position angle ES EO Eargs p Ep E.
    apply (LinearJoint_connect_to_ValueError_angle h self S r args kwargs
             HS ES other O position angle Eargs HO Ep ro EO).
    now apply outside_not_in_range.
  - intros r ro position angle ES EO E.
    apply (CylindricalJoint_connect_to_ValueError_position h self other S O r
             position angle HS ES HO ro EO).
    now apply outside_not_in_range.
  - intros r ro position angle ES EO p Ep E.
    apply (CylindricalJoint_connect_to_ValueError_angle h self other S O r
             position angle HS ES HO ro EO Ep).
    now apply outside_not_in_range.
  - intros r ro angles ES EO o E.
    apply (BallJoint_connect_to_ValueError h self other S O r angles
             HS ES HO ro EO).
    now apply orientation_outside.
Qed.

(** The state of a heap that [with_subclass] keeps. *)
Lemma with_subclass_keeps `{K : Kernel}
    (h : Heap) (self : joint_id) (S : Joint) (v : Subclass) :
  jointobjs h !! self = Some S ->
  let h' := with_subclass h self S v in
  bodies h' = bodies h /\
  (forall j, j <> self -> jointobjs h' !! j = jointobjs h !! j) /\
  connected_to <$> jointobjs h' !! self = connected_to <$> jointobjs h !! self.
Proof.
  intros HS. cbn. split; [ reflexivity | ]. split.
  - intros j Hj. now rewrite lookup_insert_ne.
  - now rewrite lookup_insert_eq, HS.
Qed.

(** The joints of the file's examples.  The socket, of ranges (0, 360),
    refuses the angles (200, 0, 0): the orientation of [Rotation(200, 0, 0)]
    is (-160, 0, 0). *)
Lemma ValueError_state_witness :
  RevoluteJoint_connect_to 2 1 (Some 400%float) Scene.heap
    = Raise ValueError Scene.heap /\
  LinearJoint_connect_to 3 [PyJoint 1; PyFloat 13] ∅ Scene.heap
    = Raise ValueError Scene.heap /\
  (exists h',
     LinearJoint_connect_to 3 [PyJoint 6; PyFloat 8; PyFloat 270] ∅ Scene.heap
       = Raise ValueError h' /\
     bodies h' = bodies Scene.heap /\
     recorded h' 3 = Some (Some 8%float, None)) /\
  CylindricalJoint_connect_to 4 1 (Some 11%float) None Scene.heap
    = Raise ValueError Scene.heap /\
  (exists h',
     CylindricalJoint_connect_to 4 1 None (Some 400%float) Scene.heap
       = Raise ValueError h' /\
     bodies h' = bodies Scene.heap /\
     recorded h' 4 = Some (Some 0%float, None)) /\
  BallJoint_connect_to 5 1 (Some (200, 0, 0)%float) Scene.heap
    = Raise ValueError Scene.heap.
Proof.
  pose proof (ValueError_state (K := SymKernel) Scene.heap 2 1 _ _
                eq_refl eq_refl) as (Hrev & _).
  pose proof (ValueError_state (K := SymKernel) Scene.heap 3 1 _ _
                eq_refl eq_refl) as (_ & Hlin & _).
  pose proof (ValueError_state (K := SymKernel) Scene.heap 3 6 _ _
                eq_refl eq_refl) as (_ & _ & Hpin & _).
  pose proof (ValueError_state (K := SymKernel) Scene.heap 4 1 _ _
                eq_refl eq_refl) as (_ & _ & _ & Hcp & Hca & _).
  pose proof (ValueError_state (K := SymKernel) Scene.heap 5 1 _ _
                eq_refl eq_refl) as (_ & _ & _ & _ & _ & Hball).
  split; [ exact (Hrev _ _ (Some 400%float) eq_refl eq_refl eq_refl) | ].
  split; [ exact (Hlin _ [PyJoint 1; PyFloat 13] ∅ (Some 13%float) None
                    eq_refl eq_refl eq_refl eq_refl) | ].
  split.
  { eexists. split; [ exact (Hpin _ _ [PyJoint 6; PyFloat 8; PyFloat 270] ∅
                               (Some 8%float) (Some 270%float)
                               eq_refl eq_refl eq_refl eq_refl eq_refl) | ].
    split; reflexivity. }
  split; [ exact (Hcp _ _ (Some 11%float) None eq_refl eq_refl eq_refl) | ].
  split.
  { eexists. split; [ exact (Hca _ _ None (Some 400%float)
                               eq_refl eq_refl eq_refl eq_refl) | ].
    split; reflexivity. }
  apply (Hball _ _ (Some (200, 0, 0)%float) eq_refl eq_refl).
  left. vm_compute. reflexivity.
Defined.

(** C1 as it is stated fails in three ways.

    The angle 270 is outside the range (0, 180) of the pin, the position
    8 is inside the range (0, 12) of the slot; the call raises
    [ValueError], and the slot, which had no position recorded, has
    recorded 8.  A cylindrical joint does the same.

    The angle 400 given to the socket is outside its range (0, 360); the
    orientation of [Rotation(400, 0, 0)] is (40, 0, 0), the call returns
    and the arm has moved.

    The angle 400 is outside the range (0, 360) of the hinge; with the
    pin, which is no [RigidJoint], as a partner the call raises
    [TypeError], not [ValueError]. *)
Lemma ValueError_not_for_every_call :
  in_range (0, 12)%float 8 = true /\
  outside (0, 180)%float 270 = true /\
  recorded Scene.heap 3 = Some (None, None) /\
  (exists h',
     LinearJoint_connect_to 3 [PyJoint 6; PyFloat 8; PyFloat 270] ∅ Scene.heap
       = Raise ValueError h' /\
     recorded h' 3 = Some (Some 8%float, None) /\
     recorded h' 3 <> recorded Scene.heap 3) /\
  recorded Scene.heap 4 = Some (None, None) /\
  (exists h',
     CylindricalJoint_connect_to 4 1 (Some 5%float) (Some 400%float)
       Scene.heap = Raise ValueError h' /\
     recorded h' 4 = Some (Some 5%float, None) /\
     recorded h' 4 <> recorded Scene.heap 4) /\
  outside (0, 360)%float 400 = true /\
  (exists h',
     BallJoint_connect_to 5 1 (Some (400, 0, 0)%float) Scene.heap
       = Return () h' /\
     coords (SV_orientation
               (SL_mul (SL_Rotation 400 0 0) (SL_to_location Scene.XY)))
       = (40, 0, 0)%float /\
     placement h' Scene.arm <> placement Scene.heap Scene.arm /\
     connected_to <$> jointobjs h' !! 5 = Some (Some 1)) /\
  RevoluteJoint_connect_to 2 6 (Some 400%float) Scene.heap
    = Raise TypeError Scene.heap.
Proof.
  repeat split; try (vm_compute; reflexivity).
  - eexists. split; [ vm_compute; reflexivity | ]. split; [ reflexivity | ].
    vm_compute. discriminate.
  - eexists. split; [ vm_compute; reflexivity | ]. split; [ reflexivity | ].
    vm_compute. discriminate.
  - eexists. split; [ vm_compute; reflexivity | ].
    split; [ vm_compute; reflexivity | ].
    split; [ vm_compute; discriminate | reflexivity ].
Qed.

(** ** The type of the partner *)

(** The four classes that test [isinstance(other, ...)] refuse any other
    partner with [TypeError], before anything is read or written. *)
Lemma connect_to_TypeError `{K : Kernel}
    (h : Heap) (self other : joint_id) (S O : Joint) :
  jointobjs h !! self = Some S ->
  jointobjs h !! other = Some O ->
  (forall r angle,
     subclass S = Revolute r -> is_Rigid O = false ->
     RevoluteJoint_connect_to self other angle h = Raise TypeError h) /\
  (forall r args kwargs position angle,
     subclass S = Linear r -> is_Rigid O || is_Revolute O = false ->
     parse_args args kwargs = (PyJoint other, position, angle) ->
     LinearJoint_connect_to self args kwargs h = Raise TypeError h) /\
  (forall r position angle,
     subclass S = Cylindrical r -> is_Rigid O = false ->
     CylindricalJoint_connect_to self other position angle h
       = Raise TypeError h) /\
  (forall r angles,
     subclass S = Ball r -> is_Rigid O = false ->
     BallJoint_connect_to self other angles h = Raise TypeError h).
Proof.
  intros HS HO. repeat split.
  - intros r angle ES E.
    now apply (RevoluteJoint_connect_to_TypeError h self other S O r).
  - intros r args kwargs position angle ES E Eargs.
    unfold LinearJoint_connect_to. rewrite Eargs.
    rewrite run_bind, (run_get_joint _ _ _ HS), ES.
    now rewrite run_bind, (run_get_joint _ _ _ HO), E.
  - intros r position angle ES E.
    now apply (CylindricalJoint_connect_to_TypeError h self other S O r).
  - intros r angles ES E.
    now apply (BallJoint_connect_to_TypeError h self other S O r).
Qed.

(** C4, where the code departs from it. [RigidJoint.connect_to] has no
    such test.  Given the revolute joint [pin] it raises, but
    [AttributeError], at the read of [other.relative_location]; given the
    ball joint [ball] it raises nothing and moves the arm as if the ball
    joint were rigid.  The revolute joint [hinge] refuses both partners
    with [TypeError]. *)
Theorem RigidJoint_connect_to_untyped_partner :
  RigidJoint_connect_to 0 6 Scene.heap = Raise AttributeError Scene.heap /\
  (exists h',
     RigidJoint_connect_to 0 7 Scene.heap = Return () h' /\
     placement h' Scene.arm =
       Some (SL_mul
               (SL_mul (SL_of_Vector (SV_xyz 1 1 1))
                  (SL_relative_to (SL_of_Vector (SV_xyz 5 0 0))
                     (SL_of_Vector (SV_xyz 1 1 1))))
               (SL_relative_to (SL_of_Vector (SV_xyz 0 0 1)) SL_new)) /\
     placement h' Scene.arm <> placement Scene.heap Scene.arm) /\
  RevoluteJoint_connect_to 2 6 None Scene.heap = Raise TypeError Scene.heap /\
  RevoluteJoint_connect_to 2 7 None Scene.heap = Raise TypeError Scene.heap.
Proof.
  split.
  { now apply (RigidJoint_connect_to_AttributeError (K := SymKernel)
                 Scene.heap 0 6 _ _ _ _ eq_refl eq_refl eq_refl eq_refl). }
  split.
  { eexists. split.
    - now apply (RigidJoint_connect_to_Ball (K := SymKernel)
                   Scene.heap 0 7 _ _ _ _ _ eq_refl eq_refl eq_refl eq_refl _
                   eq_refl eq_refl).
    - split; [ reflexivity | vm_compute; discriminate ]. }
  split; reflexivity.
Qed.

(** ** The reference direction of a new joint *)

(** [RevoluteJoint.__init__] does what C7 says. *)
Lemma RevoluteJoint_init_reference `{K : Kernel}
    (h : Heap) (label : string) (to_part : body_id) (B : Body)
    (axis : Axis) (range : float * float) :
  bodies h !! to_part = Some B ->
  (forall v,
     Axis_is_normal axis (Axis_new origin v) = false ->
     RevoluteJoint_init label to_part axis (Some v) range h
       = Raise ValueError h) /\
  (forall v,
     Axis_is_normal axis (Axis_new origin v) = true ->
     exists self h' J r,
       RevoluteJoint_init label to_part axis (Some v) range h
         = Return self h' /\
       jointobjs h' !! self = Some J /\ subclass J = Revolute r /\
       RevoluteJoint.angle_reference r = v) /\
  (exists self h' J r,
     RevoluteJoint_init label to_part axis None range h = Return self h' /\
     jointobjs h' !! self = Some J /\ subclass J = Revolute r /\
     RevoluteJoint.angle_reference r
       = Plane_x_dir (Plane_new_z origin (Axis_direction axis))).
Proof.
  intros HB. repeat split.
  - intros v E. now apply RevoluteJoint_init_ValueError.
  - intros v E. do 4 eexists.
    split; [ now apply (RevoluteJoint_init_supplied h label to_part B) | ].
    cbn. rewrite lookup_insert_eq. repeat split; reflexivity.
  - do 4 eexists.
    split; [ now apply (RevoluteJoint_init_derived h label to_part B) | ].
    cbn. rewrite lookup_insert_eq. repeat split; reflexivity.
Qed.

(** C7, where the code departs from it. The direction [(1, 0, 0)] is
    normal to the Z axis; [RevoluteJoint.__init__] takes it and stores it,
    [CylindricalJoint.__init__] raises [AttributeError].  The direction
    [(0, 0, 1)] is not normal to it; [RevoluteJoint.__init__] raises
    [ValueError], [CylindricalJoint.__init__] raises [AttributeError]
    again.  Without a direction both derive one. *)
Theorem CylindricalJoint_init_supplied_reference :
  let x := SV_xyz 1 0 0 in
  let z := SV_xyz 0 0 1 in
  let h := Scene.heap in
  Axis_is_normal SA_Z (Axis_new origin x) = true /\
  Axis_is_normal SA_Z (Axis_new origin z) = false /\
  CylindricalJoint_init "hole" Scene.base SA_Z (Some x)
    (-10, 10)%float (0, 360)%float h = Raise AttributeError h /\
  CylindricalJoint_init "hole" Scene.base SA_Z (Some z)
    (-10, 10)%float (0, 360)%float h = Raise AttributeError h /\
  (exists h',
     RevoluteJoint_init "hinge" Scene.base SA_Z (Some x) (0, 360)%float h
       = Return 8 h' /\
     RevoluteJoint.angle_reference <$>
       (J ← jointobjs h' !! 8;
        match subclass J with Revolute r => Some r | _ => None end)
       = Some x) /\
  RevoluteJoint_init "hinge" Scene.base SA_Z (Some z) (0, 360)%float h
    = Raise ValueError h /\
  (exists h',
     CylindricalJoint_init "hole" Scene.base SA_Z None
       (-10, 10)%float (0, 360)%float h = Return 8 h').
Proof.
  cbv zeta. split; [ reflexivity | ]. split; [ reflexivity | ].
  split; [ exact (CylindricalJoint_init_AttributeError _ _ _ _ _ _ _) | ].
  split; [ exact (CylindricalJoint_init_AttributeError _ _ _ _ _ _ _) | ].
  split; [ eexists; split; vm_compute; reflexivity | ].
  split; [ reflexivity | ].
  eexists. vm_compute. reflexivity.
Qed.

(** ** LinearJoint: where the partner goes *)

(** C5, as the code has it. With the position [p] in range, a rigid
    partner's body goes to
    [self.parent.location * (Location(offset) * Location())], where
    [offset = relative_axis.position + relative_axis.direction * p], and
    the angle 0 is recorded.  A revolute partner's body goes to
    [self.parent.location * (Location(offset) * rotation)], where the
    rotation has its X direction at the partner's reference rotated by
    the angle about the partner's own axis and its Z direction along
    that axis: the axis of the pin, not the axis of the slot. *)
Theorem LinearJoint_connect_to_placement `{K : Kernel}
    (h : Heap) (self other : joint_id) (S O : Joint) (r : LinearJoint.fields)
    (args : list pyval) (kwargs : gmap string pyval)
    (position angle : option float) (P B : Body) :
  jointobjs h !! self = Some S -> subclass S = Linear r ->
  jointobjs h !! other = Some O ->
  parse_args args kwargs = (PyJoint other, pyval_of position, pyval_of angle) ->
  bodies h !! parent S = Some P ->
  bodies h !! parent O = Some B ->
  let p := default (midpoint (LinearJoint.range r)) position in
  in_range (LinearJoint.range r) p = true ->
  let offset :=
    Vector_add (Axis_position (LinearJoint.relative_axis r))
      (Vector_mul (Axis_direction (LinearJoint.relative_axis r)) p) in
  (forall ro,
     subclass O = Rigid ro ->
     exists h',
       LinearJoint_connect_to self args kwargs h = Return () h' /\
       placement h' (parent O) =
         Some (location P * (Location_of_Vector offset * Location_new))%loc /\
       recorded h' self = Some (Some p, Some 0%float)) /\
  (forall ro,
     subclass O = Revolute ro ->
     let a := default (RevoluteJoint.range ro).1 angle in
     in_range (RevoluteJoint.range ro) a = true ->
     exists h',
       LinearJoint_connect_to self args kwargs h = Return () h' /\
       placement h' (parent O) =
         Some (location P
               * (Location_of_Vector offset
                  * Location_of_Plane
                      (Plane_new origin
                         (Vector_rotate (RevoluteJoint.angle_reference ro)
                            (RevoluteJoint.relative_axis ro) a)
                         (Axis_direction (RevoluteJoint.relative_axis ro)))))%loc /\
       recorded h' self = Some (Some p, Some a)).
Proof.
  intros HS ES HO Eargs HP HB p Ep offset. split.
  - intros ro EO. eexists.
    split; [ apply (LinearJoint_connect_to_Rigid h self S r args kwargs HS ES
                      other O position angle Eargs HO Ep P B HP HB ro EO) | ].
    unfold placement, recorded, connected. cbn [bodies jointobjs].
    rewrite !lookup_insert_eq. split; reflexivity.
  - intros ro EO a Ea. eexists.
    split; [ apply (LinearJoint_connect_to_Revolute h self S r args kwargs
                      HS ES other O position angle Eargs HO Ep P B HP HB
                      ro EO Ea) | ].
    unfold placement, recorded, connected. cbn [bodies jointobjs].
    rewrite !lookup_insert_eq. split; reflexivity.
Qed.

(** The slider and the pin slot of the file's examples. *)
Lemma LinearJoint_connect_to_placement_witness :
  (exists h',
     LinearJoint_connect_to 3 [PyJoint 1] {[ "position" := PyFloat 8 ]}
       Scene.heap = Return () h' /\
     recorded h' 3 = Some (Some 8%float, Some 0%float)) /\
  (exists h',
     LinearJoint_connect_to 3 [PyJoint 6; PyFloat 6; PyFloat 60] ∅
       Scene.heap = Return () h' /\
     recorded h' 3 = Some (Some 6%float, Some 60%float)).
Proof.
  split.
  - assert (Eargs : parse_args [PyJoint 1] {[ "position" := PyFloat 8 ]}
                    = (PyJoint 1, pyval_of (Some 8%float), pyval_of None))
      by (vm_compute; reflexivity).
    destruct (LinearJoint_connect_to_placement (K := SymKernel) Scene.heap 3 1
                _ _ _ [PyJoint 1] {[ "position" := PyFloat 8 ]}
                (Some 8%float) None _ _
                eq_refl eq_refl eq_refl Eargs eq_refl eq_refl eq_refl)
      as (Hrigid & _).
    destruct (Hrigid _ eq_refl) as (h' & Hrun & _ & Hrec).
    exists h'. split; [ exact Hrun | exact Hrec ].
  - assert (Eargs : parse_args [PyJoint 6; PyFloat 6; PyFloat 60] ∅
                    = (PyJoint 6, pyval_of (Some 6%float),
                       pyval_of (Some 60%float)))
      by (vm_compute; reflexivity).
    destruct (LinearJoint_connect_to_placement (K := SymKernel) Scene.heap 3 6
                _ _ _ [PyJoint 6; PyFloat 6; PyFloat 60] ∅
                (Some 6%float) (Some 60%float) _ _
                eq_refl eq_refl eq_refl Eargs eq_refl eq_refl eq_refl)
      as (_ & Hpin).
    destruct (Hpin _ eq_refl eq_refl) as (h' & Hrun & _ & Hrec).
    exists h'. split; [ exact Hrun | exact Hrec ].
Defined.

(** C5 as it is stated fails.  The slot runs along X, the pin turns
    about Z.  The arm does not go where a rotation about the slot's axis
    with Z along the slot would put it, whether that axis is read as
    the joint's [relative_axis], as its [axis], or as the axis through
    the origin with the direction of the slot. *)
Lemma LinearJoint_pin_not_about_slot_axis :
  exists h' P S r O ro,
    bodies Scene.heap !! Scene.base = Some P /\
    jointobjs Scene.heap !! 3 = Some S /\ subclass S = Linear r /\
    jointobjs Scene.heap !! 6 = Some O /\ subclass O = Revolute ro /\
    LinearJoint_connect_to 3 [PyJoint 6; PyFloat 6; PyFloat 60] ∅ Scene.heap
      = Return () h' /\
    placement h' Scene.arm
      = Some (LinearJoint_new_location P r 6 (pin_rotation ro 60)) /\
    placement h' Scene.arm
      <> Some (LinearJoint_new_location P r 6
                 (spec_pin_rotation (LinearJoint.relative_axis r) ro 60)) /\
    placement h' Scene.arm
      <> Some (LinearJoint_new_location P r 6
                 (spec_pin_rotation (LinearJoint.axis r) ro 60)) /\
    placement h' Scene.arm
      <> Some (LinearJoint_new_location P r 6
                 (spec_pin_rotation
                    (Axis_new origin
                       (Axis_direction (LinearJoint.relative_axis r)))
                    ro 60)).
Proof.
  do 6 eexists.
  split; [ reflexivity | ]. split; [ reflexivity | ]. split; [ reflexivity | ].
  split; [ reflexivity | ]. split; [ reflexivity | ].
  split; [ vm_compute; reflexivity | ].
  split; [ reflexivity | ].
  repeat split; vm_compute; intros E; congruence.
Qed.

(** ** BallJoint *)

(** C6. Without angles the rotation is made of the three minima; with
    angles, of these; in both cases it is
    [Rotation(x, y, z) * angle_reference.to_location()].  The three
    components of the orientation of this rotation are checked against
    the three ranges: if one fails, [ValueError] is raised and the heap
    is as before; otherwise the partner's body goes to
    [self.parent.location * self.relative_location * rotation
     * other.relative_location.inverse()]. *)
Theorem BallJoint_connect_to_spec `{K : Kernel}
    (h : Heap) (self other : joint_id) (S O : Joint)
    (r : BallJoint.fields) (ro : RigidJoint.fields) (P B : Body) :
  jointobjs h !! self = Some S -> subclass S = Ball r ->
  jointobjs h !! other = Some O -> subclass O = Rigid ro ->
  bodies h !! parent S = Some P ->
  bodies h !! parent O = Some B ->
  let range_x := (BallJoint.angle_range r).1.1 in
  let range_y := (BallJoint.angle_range r).1.2 in
  let range_z := (BallJoint.angle_range r).2 in
  let reference := Plane_to_location (BallJoint.angle_reference r) in
  BallJoint_rotation r None
    = (Rotation range_x.1 range_y.1 range_z.1 * reference)%loc /\
  (forall x y z,
     BallJoint_rotation r (Some (x, y, z)) = (Rotation x y z * reference)%loc) /\
  BallJoint_connect_to self other None h
    = BallJoint_connect_to self other
        (Some (range_x.1, range_y.1, range_z.1)) h /\
  (forall angles,
     let rotation := BallJoint_rotation r angles in
     let o := Location_orientation rotation in
     let valid :=
       in_range range_x (Vector_X o) && in_range range_y (Vector_Y o)
       && in_range range_z (Vector_Z o) in
     (valid = false ->
      BallJoint_connect_to self other angles h = Raise ValueError h) /\
     (valid = true ->
      exists h',
        BallJoint_connect_to self other angles h = Return () h' /\
        placement h' (parent O) =
          Some (location P * BallJoint.relative_location r * rotation
                * Location_inverse (RigidJoint.relative_location ro))%loc)).
Proof.
  intros HS ES HO EO HP HB range_x range_y range_z reference.
  split; [ reflexivity | ]. split; [ reflexivity | ].
  split.
  { unfold BallJoint_connect_to.
    rewrite !run_bind, !(run_get_joint _ _ _ HS), ES. reflexivity. }
  intros angles rotation o valid.
  assert (Hvalid :
    orientation_in_range (BallJoint.angle_range r) o = valid).
  { unfold orientation_in_range, valid. cbn [forallb].
    now rewrite andb_true_r, andb_assoc. }
  split.
  - intros E.
    apply (BallJoint_connect_to_ValueError h self other S O r angles
             HS ES HO ro EO).
    fold rotation. fold o. now rewrite Hvalid.
  - intros E. eexists.
    split.
    + apply (BallJoint_connect_to_Return h self other S O r angles
               HS ES HO ro EO P B HP HB).
      fold rotation. fold o. now rewrite Hvalid.
    + unfold placement, connected. cbn [bodies].
      now rewrite lookup_insert_eq.
Qed.

(** The ball joint of the file's examples, at the angles (10, 20, 30). *)
Lemma BallJoint_connect_to_spec_witness :
  exists h',
    BallJoint_connect_to 5 1 (Some (10, 20, 30)%float) Scene.heap
      = Return () h' /\
    placement h' Scene.arm =
      Some (SL_mul
              (SL_mul
                 (SL_mul (SL_of_Vector (SV_xyz 1 1 1))
                    (SL_relative_to (SL_of_Vector (SV_xyz 0 5 0))
                       (SL_of_Vector (SV_xyz 1 1 1))))
                 (SL_mul (SL_Rotation 10 20 30) (SL_to_location Scene.XY)))
              (SL_inverse
                 (SL_relative_to (SL_of_Vector (SV_xyz 0 0 5)) SL_new))).
Proof.
  destruct (BallJoint_connect_to_spec (K := SymKernel) Scene.heap 5 1
              _ _ _ _ _ _
              eq_refl eq_refl eq_refl eq_refl eq_refl eq_refl)
    as (_ & _ & _ & Hcheck).
  destruct (Hcheck (Some (10, 20, 30)%float)) as (_ & Hok).
  destruct (Hok eq_refl) as (h' & Hrun & Hloc).
  exists h'. split; [ exact Hrun | exact Hloc ].
Defined.

(** ** LinearJoint: the parameters left out *)

(** C8. In every call of [LinearJoint.connect_to] a position that is
    left out is [sum(range) / 2], and with a revolute partner an angle
    that is left out is [other.range[0]].

    The call without a position is the call with the position
    [sum(range) / 2], and with a revolute partner the call without an
    angle is the call with the angle [other.range[0]].  What the call
    does with them: below, [p] is the position given, or
    [sum(range) / 2] when none is, and [a] is the angle given, or
    [other.range[0]] when none is.  If [p] is not in the range of the
    joint, [ValueError] is raised and nothing has changed.  Otherwise,
    with a rigid partner the call returns, [p] and the angle 0 are
    recorded and the partner's body is at [p] along the axis; with a
    revolute partner, if [a] is not in the partner's range, [ValueError]
    is raised with [p] recorded, and else the call returns, [p] and [a]
    are recorded and the partner's body is at [p] along the axis, turned
    by [a].

    [sum(range) / 2] is [(min + max) / 2]; for the range of two negative
    zeros they are the zeros of the two signs, equal as numbers. *)
Theorem LinearJoint_connect_to_defaults `{K : Kernel}
    (h : Heap) (self other : joint_id) (S O : Joint)
    (r : LinearJoint.fields) :
  jointobjs h !! self = Some S -> subclass S = Linear r ->
  jointobjs h !! other = Some O ->
  let lo := (LinearJoint.range r).1 in
  let hi := (LinearJoint.range r).2 in
  let middle := midpoint (LinearJoint.range r) in
  (forall args kwargs args' kwargs' angle,
     parse_args args kwargs = (PyJoint other, PyNone, angle) ->
     parse_args args' kwargs' = (PyJoint other, PyFloat middle, angle) ->
     LinearJoint_connect_to self args kwargs h
       = LinearJoint_connect_to self args' kwargs' h) /\
  (forall ro args kwargs args' kwargs' position,
     subclass O = Revolute ro ->
     parse_args args kwargs = (PyJoint other, position, PyNone) ->
     parse_args args' kwargs' =
       (PyJoint other, position, PyFloat (RevoluteJoint.range ro).1) ->
     LinearJoint_connect_to self args kwargs h
       = LinearJoint_connect_to self args' kwargs' h) /\
  (forall args kwargs position angle,
     is_Rigid O || is_Revolute O = true ->
     parse_args args kwargs
       = (PyJoint other, pyval_of position, pyval_of angle) ->
     let p := default middle position in
     in_range (LinearJoint.range r) p = false ->
     LinearJoint_connect_to self args kwargs h = Raise ValueError h) /\
  (forall ro args kwargs position angle P B,
     subclass O = Rigid ro ->
     parse_args args kwargs
       = (PyJoint other, pyval_of position, pyval_of angle) ->
     bodies h !! parent S = Some P -> bodies h !! parent O = Some B ->
     let p := default middle position in
     in_range (LinearJoint.range r) p = true ->
     exists h',
       LinearJoint_connect_to self args kwargs h = Return () h' /\
       recorded h' self = Some (Some p, Some 0%float) /\
       placement h' (parent O)
         = Some (LinearJoint_new_location P r p Location_new)) /\
  (forall ro args kwargs position angle,
     subclass O = Revolute ro ->
     parse_args args kwargs
       = (PyJoint other, pyval_of position, pyval_of angle) ->
     let p := default middle position in
     let a := default (RevoluteJoint.range ro).1 angle in
     in_range (LinearJoint.range r) p = true ->
     in_range (RevoluteJoint.range ro) a = false ->
     exists h',
       LinearJoint_connect_to self args kwargs h = Raise ValueError h' /\
       bodies h' = bodies h /\
       recorded h' self = Some (Some p, LinearJoint.angle r)) /\
  (forall ro args kwargs position angle P B,
     subclass O = Revolute ro ->
     parse_args args kwargs
       = (PyJoint other, pyval_of position, pyval_of angle) ->
     bodies h !! parent S = Some P -> bodies h !! parent O = Some B ->
     let p := default middle position in
     let a := default (RevoluteJoint.range ro).1 angle in
     in_range (LinearJoint.range r) p = true ->
     in_range (RevoluteJoint.range ro) a = true ->
     exists h',
       LinearJoint_connect_to self args kwargs h = Return () h' /\
       recorded h' self = Some (Some p, Some a) /\
       placement h' (parent O)
         = Some (LinearJoint_new_location P r p (pin_rotation ro a))) /\
  (middle = ((lo + hi) / 2)%float \/
   (LinearJoint.range r = (-0, -0)%float /\
    (middle =? (lo + hi) / 2)%float = true)).
Proof.
  intros HS ES HO lo hi middle.
  split; [ | split; [ | split; [ | split; [ | split; [ | split ] ] ] ] ].
  - intros args kwargs args' kwargs' angle E E'.
    unfold LinearJoint_connect_to. rewrite E, E'.
    now rewrite !run_bind, !(run_get_joint _ _ _ HS), ES.
  - intros ro args kwargs args' kwargs' position EO E E'.
    unfold LinearJoint_connect_to. rewrite E, E'.
    rewrite !run_bind, !(run_get_joint _ _ _ HS), ES.
    rewrite !run_bind, !(run_get_joint _ _ _ HO).
    destruct (negb (is_Rigid O || is_Revolute O)); [ reflexivity | ].
    rewrite !run_bind.
    destruct (number_or _ position h) as [p h1| |]; try reflexivity.
    destruct (negb (in_range (LinearJoint.range r) p)); [ reflexivity | ].
    rewrite !run_bind. cbn [put_joint]. now rewrite EO.
  - intros args kwargs position angle EO E p Ep.
    exact (LinearJoint_connect_to_ValueError_position h self S r args kwargs
             HS ES other O position angle E HO EO Ep).
  - intros ro args kwargs position angle P B EO E HP HB p Ep. eexists.
    split; [ apply (LinearJoint_connect_to_Rigid h self S r args kwargs
                      HS ES other O position angle E HO Ep P B HP HB ro EO) | ].
    unfold recorded, placement, connected. cbn [jointobjs bodies].
    now rewrite !lookup_insert_eq.
  - intros ro args kwargs position angle EO E p a Ep Ea. eexists.
    split; [ apply (LinearJoint_connect_to_ValueError_angle h self S r
                      args kwargs HS ES other O position angle E HO Ep
                      ro EO Ea) | ].
    split; [ reflexivity | ].
    unfold recorded. cbn [jointobjs]. now rewrite lookup_insert_eq.
  - intros ro args kwargs position angle P B EO E HP HB p a Ep Ea. eexists.
    split; [ apply (LinearJoint_connect_to_Revolute h self S r args kwargs
                      HS ES other O position angle E HO Ep P B HP HB ro EO
                      Ea) | ].
    unfold recorded, placement, connected. cbn [jointobjs bodies].
    now rewrite !lookup_insert_eq.
  - subst lo hi middle. unfold midpoint.
    destruct (py_sum_add (LinearJoint.range r)) as [->| ->];
      [ now left | right ].
    split; reflexivity.
Qed.

(** The slot of the file's examples, of range (0, 12).  With the pin, of
    range (0, 180), and nothing else given: position 6 and angle 0, the
    arm at 6 along the axis.  With the rigid joint on top of the arm and
    nothing else given: position 6 again.  With the angle 270 and no
    position: [ValueError], and 6 is recorded. *)
Lemma LinearJoint_connect_to_defaults_witness :
  LinearJoint_connect_to 3 [PyJoint 6] ∅ Scene.heap
    = LinearJoint_connect_to 3 [PyJoint 6; PyFloat 6; PyFloat 0] ∅ Scene.heap /\
  (exists h',
     LinearJoint_connect_to 3 [PyJoint 6] ∅ Scene.heap = Return () h' /\
     recorded h' 3 = Some (Some 6%float, Some 0%float) /\
     placement h' Scene.arm =
       Some (SL_mul (SL_of_Vector (SV_xyz 1 1 1))
               (SL_mul
                  (SL_of_Vector
                     (SV_add
                        (SV_position
                           (SA_located Scene.X_axis
                              (SL_inverse (SL_of_Vector (SV_xyz 1 1 1)))))
                        (SV_mul
                           (SV_direction
                              (SA_located Scene.X_axis
                                 (SL_inverse (SL_of_Vector (SV_xyz 1 1 1)))))
                           6)))
                  (SL_of_Plane
                     (SP_new (SV_xyz 0 0 0)
                        (SV_rotate
                           (SV_x_dir
                              (SP_new_z (SV_xyz 0 0 0) (SV_direction SA_Z)))
                           (SA_located SA_Z (SL_inverse SL_new)) 0)
                        (SV_direction
                           (SA_located SA_Z (SL_inverse SL_new)))))))) /\
  (exists h',
     LinearJoint_connect_to 3 [PyJoint 1] ∅ Scene.heap = Return () h' /\
     recorded h' 3 = Some (Some 6%float, Some 0%float) /\
     placement h' Scene.arm =
       Some (SL_mul (SL_of_Vector (SV_xyz 1 1 1))
               (SL_mul
                  (SL_of_Vector
                     (SV_add
                        (SV_position
                           (SA_located Scene.X_axis
                              (SL_inverse (SL_of_Vector (SV_xyz 1 1 1)))))
                        (SV_mul
                           (SV_direction
                              (SA_located Scene.X_axis
                                 (SL_inverse (SL_of_Vector (SV_xyz 1 1 1)))))
                           6)))
                  SL_new))) /\
  (exists h',
     LinearJoint_connect_to 3 [PyJoint 6] {[ "angle" := PyFloat 270 ]}
       Scene.heap = Raise ValueError h' /\
     recorded h' 3 = Some (Some 6%float, None)).
Proof.
  destruct (LinearJoint_connect_to_defaults (K := SymKernel) Scene.heap 3 6
              _ _ _ eq_refl eq_refl eq_refl)
    as (Hposition & Hangle & _ & _ & Hrefused & Hpin & _).
  destruct (LinearJoint_connect_to_defaults (K := SymKernel) Scene.heap 3 1
              _ _ _ eq_refl eq_refl eq_refl)
    as (_ & _ & _ & Hrigid & _).
  split; [ | split; [ | split ] ].
  - rewrite (Hposition [PyJoint 6] ∅ [PyJoint 6; PyFloat 6] ∅ PyNone)
      by (vm_compute; reflexivity).
    apply (Hangle _ [PyJoint 6; PyFloat 6] ∅
             [PyJoint 6; PyFloat 6; PyFloat 0] ∅ (PyFloat 6) eq_refl);
      vm_compute; reflexivity.
  - edestruct Hpin with (args := [PyJoint 6]) (kwargs := ∅ : gmap string pyval)
                        (position := @None float) (angle := @None float)
      as (h' & Hrun & Hrec & Hloc);
      [ reflexivity | vm_compute; reflexivity | reflexivity | reflexivity
      | reflexivity | reflexivity | ].
    exists h'. split; [ exact Hrun | ]. split; [ exact Hrec | exact Hloc ].
  - edestruct Hrigid with (args := [PyJoint 1]) (kwargs := ∅ : gmap string pyval)
                          (position := @None float) (angle := @None float)
      as (h' & Hrun & Hrec & Hloc);
      [ reflexivity | vm_compute; reflexivity | reflexivity | reflexivity
      | reflexivity | ].
    exists h'. split; [ exact Hrun | ]. split; [ exact Hrec | exact Hloc ].
  - assert (Eargs :
      parse_args [PyJoint 6] {[ "angle" := PyFloat 270 ]}
        = (PyJoint 6, pyval_of None, pyval_of (Some 270%float)))
      by (vm_compute; reflexivity).
    destruct (Hrefused _ [PyJoint 6] {[ "angle" := PyFloat 270 ]}
                None (Some 270%float) eq_refl Eargs eq_refl eq_refl)
      as (h' & Hrun & _ & Hrec).
    exists h'. split; [ exact Hrun | exact Hrec ].
Defined.

(** ** What a successful call changes *)

Section Frame.
Context `{K : Kernel}.

Lemma bind_Return_inv {A B} (m : M A) (f : A -> M B) (h h' : Heap) (b : B) :
  (m ≫= f) h = Return b h' ->
  exists a h1, m h = Return a h1 /\ f a h1 = Return b h'.
Proof.
  rewrite run_bind. destruct (m h) as [a h1| |]; try discriminate. eauto.
Qed.

Lemma get_joint_inv (j : joint_id) (J : Joint) (h h' : Heap) :
  get_joint j h = Return J h' -> jointobjs h !! j = Some J /\ h' = h.
Proof.
  unfold get_joint. destruct (jointobjs h !! j); intros [= -> ->]; auto.
Qed.

Lemma get_body_inv (b : body_id) (B : Body) (h h' : Heap) :
  get_body b h = Return B h' -> bodies h !! b = Some B /\ h' = h.
Proof.
  unfold get_body. destruct (bodies h !! b); intros [= -> ->]; auto.
Qed.

Lemma locate_inv (b : body_id) (l : Location) (u : unit) (h h' : Heap) :
  locate b l h = Return u h' ->
  exists B, bodies h !! b = Some B /\
    h' = Build_Heap (<[b := set_location l B]> (bodies h)) (jointobjs h).
Proof.
  intros (B & h1 & [HB ->]%get_body_inv & [= _ <-])%bind_Return_inv. eauto.
Qed.

Lemma assign_connected_to_inv (self other : joint_id) (u : unit) (h h' : Heap) :
  assign_connected_to self other h = Return u h' ->
  exists S, jointobjs h !! self = Some S /\
    h' = Build_Heap (bodies h)
           (<[self := set_connected_to (Some other) S]> (jointobjs h)).
Proof.
  intros (S & h1 & [HS ->]%get_joint_inv & [= _ <-])%bind_Return_inv. eauto.
Qed.

Lemma relative_location_inv (J : Joint) (l : Location) (h h' : Heap) :
  relative_location J h = Return l h' -> h' = h.
Proof.
  unfold relative_location. destruct (subclass J); now intros [= _ <-].
Qed.

Lemma number_or_inv (d x : float) (v : pyval) (h h' : Heap) :
  number_or d v h = Return x h' -> h' = h.
Proof. destruct v; now intros [= _ <-]. Qed.

(** Reading a successful run backwards, one statement at a time. *)
Ltac invert_run :=
  repeat match goal with
  | H : (_ ≫= _) _ = Return _ _ |- _ =>
      apply bind_Return_inv in H; destruct H as (? & ? & ? & H)
  | H : get_joint _ _ = Return _ _ |- _ =>
      apply get_joint_inv in H; destruct H as [? ->]
  | H : get_body _ _ = Return _ _ |- _ =>
      apply get_body_inv in H; destruct H as [? ->]
  | H : locate _ _ _ = Return _ _ |- _ =>
      apply locate_inv in H; destruct H as (? & ? & ->)
  | H : assign_connected_to _ _ _ = Return _ _ |- _ =>
      apply assign_connected_to_inv in H; destruct H as (? & ? & ->)
  | H : relative_location _ _ = Return _ _ |- _ =>
      apply relative_location_inv in H; subst
  | H : number_or _ _ _ = Return _ _ |- _ =>
      apply number_or_inv in H; subst
  | H : put_joint _ _ _ = Return _ _ |- _ =>
      injection H as <-
  | H : mret _ _ = Return _ _ |- _ => injection H as <- <-
  | H : raise _ _ = Return _ _ |- _ => discriminate H
  | H : stuck _ = Return _ _ |- _ => discriminate H
  | H : (if ?b then _ else _) _ = Return _ _ |- _ => destruct b eqn:?
  | H : (match ?x with _ => _ end) _ = Return _ _ |- _ => destruct x eqn:?
  | H : (let '(_, _) := ?x in _) _ = Return _ _ |- _ => destruct x eqn:?
  end.

Ltac close_run :=
  cbn [bodies jointobjs] in *; simplify_map_eq;
  do 4 eexists; split; [ eassumption | ]; split; [ eassumption | ];
  unfold connected; cbn [bodies jointobjs];
  rewrite ?insert_insert_eq; split; [ | reflexivity ]; reflexivity.

Variables (h h' : Heap) (self other : joint_id) (O : Joint).
Hypothesis HO : jointobjs h !! other = Some O.

Lemma RigidJoint_connect_to_inv :
  RigidJoint_connect_to self other h = Return () h' ->
  left_connected h h' self other O.
Proof.
  intros H. unfold RigidJoint_connect_to in H. invert_run. close_run.
Qed.

Lemma RevoluteJoint_connect_to_inv (angle : option float) :
  RevoluteJoint_connect_to self other angle h = Return () h' ->
  left_connected h h' self other O.
Proof.
  intros H. unfold RevoluteJoint_connect_to in H. invert_run. close_run.
Qed.

Lemma LinearJoint_connect_to_inv
    (args : list pyval) (kwargs : gmap string pyval) (position angle : pyval) :
  parse_args args kwargs = (PyJoint other, position, angle) ->
  LinearJoint_connect_to self args kwargs h = Return () h' ->
  left_connected h h' self other O.
Proof.
  intros Eargs H. unfold LinearJoint_connect_to in H. rewrite Eargs in H.
  invert_run; close_run.
Qed.

Lemma CylindricalJoint_connect_to_inv (position angle : option float) :
  CylindricalJoint_connect_to self other position angle h = Return () h' ->
  left_connected h h' self other O.
Proof.
  intros H. unfold CylindricalJoint_connect_to in H. invert_run. close_run.
Qed.

Lemma BallJoint_connect_to_inv (angles : option (float * float * float)) :
  BallJoint_connect_to self other angles h = Return () h' ->
  left_connected h h' self other O.
Proof.
  intros H. unfold BallJoint_connect_to in H. invert_run. close_run.
Qed.

End Frame.

(** C9, as the code has it. A successful [connect_to] of any of the five
    classes changes the location of no body but the partner's, and the
    [joints] of no body at all; it changes no joint but the calling one,
    whose [connected_to] is the partner afterwards.  So the calling
    joint's own body stays where it was when it is not the partner's
    body as well, and the partner joint is as it was, its [connected_to]
    included, when it is not the calling joint itself.  Nothing in the
    code keeps two joints of one body, or a joint and itself, from being
    connected. *)
Theorem connect_to_moves_partner_only `{K : Kernel}
    (h h' : Heap) (self other : joint_id) (O : Joint) :
  jointobjs h !! other = Some O ->
  RigidJoint_connect_to self other h = Return () h' \/
  (exists angle,
     RevoluteJoint_connect_to self other angle h = Return () h') \/
  (exists args kwargs position angle,
     parse_args args kwargs = (PyJoint other, position, angle) /\
     LinearJoint_connect_to self args kwargs h = Return () h') \/
  (exists position angle,
     CylindricalJoint_connect_to self other position angle h
       = Return () h') \/
  (exists angles,
     BallJoint_connect_to self other angles h = Return () h') ->
  moved_only h h' self other O /\
  (forall S,
     jointobjs h !! self = Some S -> parent S <> parent O ->
     bodies h' !! parent S = bodies h !! parent S) /\
  (other <> self ->
   jointobjs h' !! other = Some O /\
   connected_to <$> jointobjs h' !! other = Some (connected_to O)).
Proof.
  intros HO Hrun.
  assert (Hleft : left_connected h h' self other O).
  { destruct Hrun as [H|[(angle & H)|[(args & kwargs & position & angle & E & H)
                    |[(position & angle & H)|(angles & H)]]]].
    - exact (RigidJoint_connect_to_inv h h' self other O HO H).
    - exact (RevoluteJoint_connect_to_inv h h' self other O HO angle H).
    - exact (LinearJoint_connect_to_inv h h' self other O HO
               args kwargs position angle E H).
    - exact (CylindricalJoint_connect_to_inv h h' self other O HO
               position angle H).
    - exact (BallJoint_connect_to_inv h h' self other O HO angles H). }
  destruct Hleft as (S & S' & B & l & HS & HB & EP & ->).
  unfold moved_only, connected. cbn [bodies jointobjs].
  split; [ | split ].
  - split; [ | split; [ | split; [ | split ] ] ].
    + intros b Hb. now rewrite lookup_insert_ne.
    + now rewrite lookup_insert_eq, HB.
    + intros j Hj. now rewrite lookup_insert_ne.
    + now rewrite lookup_insert_eq.
    + rewrite lookup_insert_eq, HS. cbn. now rewrite EP.
  - intros S0 HS0 Hne. rewrite lookup_insert_ne; [ reflexivity | ].
    congruence.
  - intros Hne. rewrite lookup_insert_ne by congruence.
    rewrite HO. split; reflexivity.
Qed.

(** The hinge of the file's examples: the base stays, the arm moves,
    and the joint of the arm is not told. *)
Lemma connect_to_moves_partner_only_witness :
  exists h',
    RevoluteJoint_connect_to 2 1 (Some 90%float) Scene.heap = Return () h' /\
    bodies h' !! Scene.base = bodies Scene.heap !! Scene.base /\
    connected_to <$> jointobjs h' !! 2 = Some (Some 1) /\
    connected_to <$> jointobjs h' !! 1 = Some None.
Proof.
  assert (Hrun : exists h',
    RevoluteJoint_connect_to 2 1 (Some 90%float) Scene.heap = Return () h').
  { eexists. vm_compute. reflexivity. }
  destruct Hrun as (h' & Hrun). exists h'. split; [ exact Hrun | ].
  destruct (connect_to_moves_partner_only (K := SymKernel) Scene.heap h' 2 1 _
              eq_refl (or_intror (or_introl (ex_intro _ _ Hrun))))
    as ((_ & _ & _ & Hself & _) & Hbase & Hother).
  split; [ apply (Hbase _ eq_refl); vm_compute; discriminate | ].
  split; [ exact Hself | ].
  destruct Hother as (_ & Hother); [ discriminate | exact Hother ].
Defined.

(** C9 as it is stated fails in two ways, both in calls that return.

    The hinge and the rigid joint on the side are joints of the same box,
    the base: [hinge.connect_to(side, 90)] moves the base, the calling
    joint's own body.

    A rigid joint connected to itself is its own partner, and its
    [connected_to], which was [None], is set. *)
Lemma connect_to_own_body_or_itself :
  parent <$> jointobjs Scene.heap !! 2 = Some Scene.base /\
  parent <$> jointobjs Scene.heap !! 0 = Some Scene.base /\
  (exists h',
     RevoluteJoint_connect_to 2 0 (Some 90%float) Scene.heap = Return () h' /\
     placement h' Scene.base <> placement Scene.heap Scene.base) /\
  connected_to <$> jointobjs Scene.heap !! 0 = Some None /\
  (exists h',
     RigidJoint_connect_to 0 0 Scene.heap = Return () h' /\
     connected_to <$> jointobjs h' !! 0 = Some (Some 0)).
Proof.
  split; [ reflexivity | ]. split; [ reflexivity | ].
  split.
  { eexists. split; [ vm_compute; reflexivity | ].
    vm_compute. discriminate. }
  split; [ reflexivity | ].
  eexists. split; [ vm_compute; reflexivity | reflexivity ].
Qed.
